(** * GedeonChatBot: the HTTP relay of [main.py]

    A shallow embedding of the three request handlers of [main.py]
    ([start_conversation], [chat], [health_check]) and of the start-up half
    of [lifespan], followed by the properties of the poll loop of [chat].

    The handlers talk to a hosted assistant service through the module-level
    [client].  Here the service is a deterministic script ([Client]): every
    remote operation answers with a value or raises, and the answer to a
    status retrieval may depend on how many retrievals the service has served
    before.  Handlers are computations in a small monad [M] that threads the
    number of retrievals served, records every observable effect (remote
    calls, sleeps, printed lines) in a log, and propagates Python
    exceptions.  The version check made when the module is imported and the
    shutdown half of [lifespan] play no part in the handlers and are not
    modelled. *)

From Stdlib Require Import String Ascii List Arith Bool Lia DecimalString.
From Equations Require Import Equations.
Import ListNotations.
Open Scope string_scope.

(** ** Data model *)

(** The objects returned by the assistant service, with the attributes the
    handlers read. *)

(** [thread_oid] is the attribute [id] of a thread. *)
Record Thread := { thread_oid : string }.

Record Run := { id : string }.

(** [last_error] of a run: an object when the service reports one, [None]
    otherwise.  An object is truthy in Python, [None] is falsy.  The handler
    reads nothing of the object but formats it in an f-string, so the
    object is known here by [str_LastError], the string that [str] of it
    gives; that string is computed by the client library from the fields of
    the object. *)
Record LastError := { str_LastError : string }.

Record RunStatus := {
  status : string;
  last_error : option LastError
}.

Record Text := { value : string }.

(** A content block of a message.  Only a text block has the attribute
    [text]; for any other block [type_name] is the name of its class. *)
Inductive ContentBlock :=
| TextContentBlock (text : Text)
| OtherContentBlock (type_name : string).

Record Message := { content : list ContentBlock }.

Record MessageList := { data : list Message }.

(** Pydantic models of the HTTP interface. *)
Record ChatRequest := { thread_id : string; message : string }.
Record StartResponse := { start_thread_id : string }.
Record ChatResponse := { response : string }.

Record HealthResponse := {
  health_status : string;
  openai_configured : bool;
  assistant_configured : bool
}.

(** ** The assistant service *)

(** What a remote operation does: return a value, or raise an exception of
    the client library whose [str] is [msg]. *)
Inductive Answer (A : Type) :=
| Ok (a : A)
| Fail (msg : string).
Arguments Ok {A} a.
Arguments Fail {A} msg.

(** The operations of [client.beta.threads] the handlers use.  [runs_retrieve]
    takes first the number of status retrievals served before this one. *)
Record Client := {
  threads_create : Answer Thread;
  messages_create : string -> string -> string -> Answer unit;
  runs_create : string -> option string -> Answer Run;
  runs_retrieve : nat -> string -> string -> Answer RunStatus;
  messages_list : string -> nat -> Answer MessageList
}.

(** The module-level variables [client] and [assistant_id]; both are [None]
    until [lifespan] has run. *)
Record Globals := {
  client : option Client;
  assistant_id : option string
}.

(** ** Exceptions, effects and the handler monad *)

(** [HTTPException] of FastAPI, and any other instance of [Exception] (a
    [ValueError], an error of the client library, an [IndexError], ...) with
    its [str].  These are the exceptions [except Exception] catches.  A
    [BaseException] that is not an [Exception], such as the
    [asyncio.CancelledError] of a request cancelled at an [await], is not
    represented: an execution is a request followed to its end. *)
Inductive exn :=
| HTTPException (status_code : nat) (detail : string)
| Exception (msg : string).

Inductive result (A : Type) :=
| Returned (a : A)
| Raised (e : exn).
Arguments Returned {A} a.
Arguments Raised {A} e.

(** The observable effects, in the order they happen. *)
Inductive Event :=
| Print (line : string)
| ThreadsCreate
| MessagesCreate (thread_id role content : string)
| RunsCreate (thread_id : string) (assistant_id : option string)
| RunsRetrieve (thread_id run_id : string) (answer : Answer RunStatus)
| Sleep (seconds : nat)
| MessagesList (thread_id : string) (limit : nat).

(** A computation starts with the number of retrievals served so far and
    yields its result, the new number, and the events it produced. *)
Definition M (A : Type) : Type := nat -> result A * nat * list Event.

Definition ret {A} (a : A) : M A := fun served => (Returned a, served, []).

Definition raise {A} (e : exn) : M A := fun served => (Raised e, served, []).

Definition bind {A B} (m : M A) (f : A -> M B) : M B := fun served =>
  match m served with
  | (Returned a, served', log) =>
      match f a served' with
      | (r, served'', log') => (r, served'', (log ++ log')%list)
      end
  | (Raised e, served', log) => (Raised e, served', log)
  end.

Notation "x <- m ;; k" := (bind m (fun x => k))
  (at level 61, m at next level, right associativity).
Notation "m ;;; k" := (bind m (fun _ => k))
  (at level 61, right associativity).

(** [try: body except handler]: an exception raised by [body] is passed to
    [handler]. *)
Definition try_except {A} (body : M A) (handler : exn -> M A) : M A :=
  fun served =>
  match body served with
  | (Returned a, served', log) => (Returned a, served', log)
  | (Raised e, served', log) =>
      match handler e served' with
      | (r, served'', log') => (r, served'', (log ++ log')%list)
      end
  end.

Definition emit (ev : Event) : M unit := fun served => (Returned tt, served, [ev]).

Definition print (line : string) : M unit := emit (Print line).

Definition sleep (seconds : nat) : M unit := emit (Sleep seconds).

(** A remote answer turned into a Python outcome. *)
Definition answered {A} (a : Answer A) : M A :=
  match a with
  | Ok v => ret v
  | Fail msg => raise (Exception msg)
  end.

(** Evaluating [client.beta] when [client] is still [None]. *)
Definition client_beta (g : Globals) : M Client :=
  match client g with
  | Some c => ret c
  | None => raise (Exception "'NoneType' object has no attribute 'beta'")
  end.

Definition call_threads_create (g : Globals) : M Thread :=
  c <- client_beta g ;;
  emit ThreadsCreate ;;;
  answered (threads_create c).

Definition call_messages_create (g : Globals) (thread_id role content : string)
  : M unit :=
  c <- client_beta g ;;
  emit (MessagesCreate thread_id role content) ;;;
  answered (messages_create c thread_id role content).

Definition call_runs_create (g : Globals) (thread_id : string)
  (assistant_id : option string) : M Run :=
  c <- client_beta g ;;
  emit (RunsCreate thread_id assistant_id) ;;;
  answered (runs_create c thread_id assistant_id).

(** The number of status retrievals the service has served. *)
Definition get_served : M nat := fun served => (Returned served, served, []).

Definition put_served (n : nat) : M unit := fun _ => (Returned tt, n, []).

Definition call_runs_retrieve (g : Globals) (thread_id run_id : string)
  : M RunStatus :=
  c <- client_beta g ;;
  k <- get_served ;;
  let a := runs_retrieve c k thread_id run_id in
  emit (RunsRetrieve thread_id run_id a) ;;;
  put_served (S k) ;;;
  answered a.

Definition call_messages_list (g : Globals) (thread_id : string) (limit : nat)
  : M MessageList :=
  c <- client_beta g ;;
  emit (MessagesList thread_id limit) ;;;
  answered (messages_list c thread_id limit).

(** Truth value of an optional object: [None] is falsy. *)
Definition truthy {A} (o : option A) : bool :=
  match o with Some _ => true | None => false end.

(** ** Constants *)

Definition MAX_POLL_ATTEMPTS : nat := 60.
Definition POLL_INTERVAL : nat := 1.

(** Decimal rendering of a number, as an f-string does. *)
Definition str_nat (n : nat) : string := NilEmpty.string_of_uint (Nat.to_uint n).

(** Rendering of [run_status.last_error] in an f-string. *)
Definition str_last_error (o : option LastError) : string :=
  match o with
  | Some e => str_LastError e
  | None => "None"
  end.

(** [s in [...]] for strings. *)
Definition str_in (s : string) (l : list string) : bool :=
  existsb (String.eqb s) l.

(** ** Start-up *)

Record Environ := {
  OPENAI_API_KEY : option string;
  ASSISTANT_ID : option string
}.

(** Truth value of [os.environ.get(...)]: [None] and the empty string are
    falsy. *)
Definition env_set (v : option string) : bool :=
  match v with
  | Some s => negb (s =? "")
  | None => false
  end.

(** The start-up half of [lifespan]: it assigns the globals and raises a
    [ValueError] when a variable is unset.  [OpenAI] stands for the
    constructor of the client.  The result is the outcome, the globals as
    they are left, and the lines printed. *)
Definition lifespan (OpenAI : string -> Client) (environ : Environ) (g : Globals)
  : result unit * Globals * list Event :=
  let OPENAI_API_KEY := OPENAI_API_KEY environ in
  let g := {| client := client g; assistant_id := ASSISTANT_ID environ |} in
  if negb (env_set OPENAI_API_KEY) then
    (Raised (Exception "OPENAI_API_KEY environment variable is not set"), g, [])
  else if negb (env_set (assistant_id g)) then
    (Raised (Exception "ASSISTANT_ID environment variable is not set"), g, [])
  else
    let key := match OPENAI_API_KEY with Some k => k | None => "" end in
    (Returned tt,
     {| client := Some (OpenAI key); assistant_id := assistant_id g |},
     [Print "OpenAI client initialized successfully"]).

(** ** [GET /start] *)

(** [str(e)] of a caught exception; an [HTTPException] renders as its
    status code and detail. *)
Definition str_exn (e : exn) : string :=
  match e with
  | HTTPException status_code detail => str_nat status_code ++ ": " ++ detail
  | Exception msg => msg
  end.

Definition start_conversation (g : Globals) : M StartResponse :=
  try_except
    (thread <- call_threads_create g ;;
     print ("New thread created with ID: " ++ thread_oid thread) ;;;
     ret {| start_thread_id := thread_oid thread |})
    (fun e =>
       print ("Error creating thread: " ++ str_exn e) ;;;
       raise (HTTPException 500 ("Failed to create thread: " ++ str_exn e))).

(** ** [POST /chat] *)

(** The body of the [while] loop of [chat], at the current value of
    [attempts]; [next] is the rest of the loop, entered after
    [attempts += 1].  [break] leaves the loop with [attempts] unchanged. *)
Definition poll_iteration (g : Globals) (thread_id : string) (run : Run)
  (attempts : nat) (next : M nat) : M nat :=
  run_status <- call_runs_retrieve g thread_id (id run) ;;
  let status := status run_status in
  print ("Run status: " ++ status ++ " (attempt " ++ str_nat (attempts + 1)
         ++ "/" ++ str_nat MAX_POLL_ATTEMPTS ++ ")") ;;;
  if status =? "completed" then
    ret attempts
  else if str_in status ["cancelling"; "cancelled"; "expired"; "failed"] then
    let error_msg := "Run ended with status: " ++ status in
    let error_msg :=
      if (status =? "failed") && truthy (last_error run_status)
      then error_msg ++ " - Error: " ++ str_last_error (last_error run_status)
      else error_msg in
    print error_msg ;;;
    raise (HTTPException 500 error_msg)
  else if status =? "requires_action" then
    raise (HTTPException 500
             "Run requires action - function calling not implemented")
  else
    sleep POLL_INTERVAL ;;;
    next.

(** The [while attempts < MAX_POLL_ATTEMPTS] loop, entered with the current
    value of [attempts]; it returns the value of [attempts] on leaving the
    loop (by [break], or because the condition fails), or raises. *)
Equations? poll (g : Globals) (thread_id : string) (run : Run) (attempts : nat)
  : M nat by wf (MAX_POLL_ATTEMPTS - attempts) lt :=
poll g thread_id run attempts with lt_dec attempts MAX_POLL_ATTEMPTS := {
  | left _ =>
      poll_iteration g thread_id run attempts
        (poll g thread_id run (attempts + 1))
  | right _ => ret attempts }.
Proof.
  change (MAX_POLL_ATTEMPTS - (attempts + 1) < MAX_POLL_ATTEMPTS - attempts).
  lia.
Qed.

(** [messages.data[0].content[0].text.value]: indexing an empty list raises
    [IndexError], a block that is not a text block has no [text]. *)
Definition first_text_value (messages : MessageList) : M string :=
  match data messages with
  | [] => raise (Exception "list index out of range")
  | m :: _ =>
      match content m with
      | [] => raise (Exception "list index out of range")
      | TextContentBlock text :: _ => ret (value text)
      | OtherContentBlock type_name :: _ =>
          raise (Exception ("'" ++ type_name ++ "' object has no attribute 'text'"))
      end
  end.

(** [not x] for a list and for a string. *)
Definition list_empty {A} (l : list A) : bool :=
  match l with [] => true | _ :: _ => false end.

Definition str_empty (s : string) : bool := s =? "".

Definition chat (g : Globals) (chat_request : ChatRequest) : M ChatResponse :=
  let thread_id := thread_id chat_request in
  let user_input := message chat_request in
  if str_empty thread_id then
    raise (HTTPException 400 "Missing thread_id")
  else
    print ("Processing message for thread " ++ thread_id ++ ": " ++ user_input) ;;;
    try_except
      (call_messages_create g thread_id "user" user_input ;;;
       run <- call_runs_create g thread_id (assistant_id g) ;;
       attempts <- poll g thread_id run 0 ;;
       if (MAX_POLL_ATTEMPTS <=? attempts)%nat then
         raise (HTTPException 504
                  "Request timeout: Assistant did not respond in time")
       else
         messages <- call_messages_list g thread_id 1 ;;
         if list_empty (data messages) then
           raise (HTTPException 500 "No response from assistant")
         else
           response_text <- first_text_value messages ;;
           print ("Assistant response: " ++ substring 0 100 response_text ++ "...") ;;;
           ret {| response := response_text |})
      (fun e =>
         match e with
         | HTTPException _ _ => raise e
         | Exception msg =>
             print ("Error in chat endpoint: " ++ msg) ;;;
             raise (HTTPException 500 ("Internal server error: " ++ msg))
         end).

(** ** [GET /health] *)

Definition health_check (g : Globals) : M HealthResponse :=
  ret {| health_status := "healthy";
         openai_configured := truthy (client g);
         assistant_configured := truthy (assistant_id g) |}.

(** ** The routes as the framework serves them *)

(** The JSON body of a [POST /chat] request, before validation: each field
    of [ChatRequest] is present with a string value, or absent.  A body that
    is not a JSON object, or in which a field holds another value than a
    string, is rejected by the same validation and is not represented. *)
Record ChatBody := {
  body_thread_id : option string;
  body_message : option string
}.

(** What the caller receives: the returned model (status 200), the status
    code and detail of an [HTTPException], or the rejection of a body that
    does not validate against the request model (status 422, with the names
    of the missing fields). *)
Inductive Response (A : Type) :=
| Success (body : A)
| HTTPError (status_code : nat) (detail : string)
| Unprocessable (missing : list string).
Arguments Success {A} body.
Arguments HTTPError {A} status_code detail.
Arguments Unprocessable {A} missing.

Definition http_status {A} (r : Response A) : nat :=
  match r with
  | Success _ => 200
  | HTTPError status_code _ => status_code
  | Unprocessable _ => 422
  end.

(** Both fields of [ChatRequest] are required. *)
Definition validate_ChatRequest (body : ChatBody) : list string + ChatRequest :=
  match body_thread_id body, body_message body with
  | Some t, Some m => inr {| thread_id := t; message := m |}
  | None, Some _ => inl ["thread_id"]
  | Some _, None => inl ["message"]
  | None, None => inl ["thread_id"; "message"]
  end.

(** An exception that leaves a handler: an [HTTPException] becomes the
    response; anything else is answered by the server with status 500. *)
Definition respond {A} (r : result A) : Response A :=
  match r with
  | Returned a => Success a
  | Raised (HTTPException status_code detail) => HTTPError status_code detail
  | Raised (Exception _) => HTTPError 500 "Internal Server Error"
  end.

(** One request served from a fresh script position: the response and the
    events of the handler. *)
Definition serve {A} (handler : M A) : Response A * list Event :=
  match handler 0 with
  | (r, _, log) => (respond r, log)
  end.

Definition get_start (g : Globals) : Response StartResponse * list Event :=
  serve (start_conversation g).

Definition post_chat (g : Globals) (body : ChatBody)
  : Response ChatResponse * list Event :=
  match validate_ChatRequest body with
  | inl missing => (Unprocessable missing, [])
  | inr chat_request => serve (chat g chat_request)
  end.

Definition get_health (g : Globals) : Response HealthResponse * list Event :=
  serve (health_check g).


(** ** Observations on an execution *)

(** The result and the events of a handler that serves one request. *)
Definition outcome {A} (handler : M A) : result A := fst (fst (handler 0)).

Definition events {A} (handler : M A) : list Event := snd (handler 0).

Definition is_retrieval (ev : Event) : bool :=
  match ev with RunsRetrieve _ _ _ => true | _ => false end.

Definition is_sleep (ev : Event) : bool :=
  match ev with Sleep _ => true | _ => false end.

Definition is_listing (ev : Event) : bool :=
  match ev with MessagesList _ _ => true | _ => false end.

Definition is_print (ev : Event) : bool :=
  match ev with Print _ => true | _ => false end.

(** A call to the assistant service. *)
Definition is_remote_call (ev : Event) : bool :=
  match ev with
  | ThreadsCreate | MessagesCreate _ _ _ | RunsCreate _ _
  | RunsRetrieve _ _ _ | MessagesList _ _ => true
  | Print _ | Sleep _ => false
  end.

(** A step of the poll loop: a status retrieval or the sleep after it. *)
Definition is_polling (ev : Event) : bool := is_retrieval ev || is_sleep ev.

Definition count (p : Event -> bool) (log : list Event) : nat :=
  length (filter p log).

Definition none (p : Event -> bool) (log : list Event) : bool :=
  forallb (fun ev => negb (p ev)) log.

(** The statuses after which the loop does not poll again. *)
Definition failure_statuses : list string :=
  ["cancelling"; "cancelled"; "expired"; "failed"].

Definition terminal_statuses : list string :=
  "completed" :: failure_statuses ++ ["requires_action"].

Definition is_terminal (s : string) : bool := str_in s terminal_statuses.

(** [needle in hay] for strings. *)
Fixpoint contains (needle hay : string) : bool :=
  prefix needle hay ||
  match hay with
  | EmptyString => false
  | String _ rest => contains needle rest
  end.

(** The events of [n] iterations of the loop that all end in the sleep,
    starting at the given values of [attempts] and of the script position,
    for a run that the script reports on with [answers]. *)
Fixpoint polled (thread_id run_id : string) (answers : nat -> Answer RunStatus)
  (attempts served n : nat) : list Event :=
  match n with
  | 0 => []
  | S n' =>
      RunsRetrieve thread_id run_id (answers served)
      :: Print ("Run status: "
                ++ match answers served with
                   | Ok rs => status rs
                   | Fail _ => ""
                   end
                ++ " (attempt " ++ str_nat (attempts + 1)
                ++ "/" ++ str_nat MAX_POLL_ATTEMPTS ++ ")")
      :: Sleep POLL_INTERVAL
      :: polled thread_id run_id answers (attempts + 1) (S served) n'
  end.

(** [log] put in front of the events of an execution. *)
Definition after {A} (log : list Event) (x : result A * nat * list Event)
  : result A * nat * list Event :=
  match x with
  | (r, served, log') => (r, served, (log ++ log')%list)
  end.

(** ** Vocabulary of the properties *)

(** The answer of the script to the retrieval number [k] (counted from 0)
    for this run. *)
Definition observed (c : Client) (thread_id : string) (run : Run) (k : nat)
  : Answer RunStatus :=
  runs_retrieve c k thread_id (id run).

(** The first [n] retrievals all succeed and report a status that is not
    terminal. *)
Definition pending_for (c : Client) (thread_id : string) (run : Run) (n : nat)
  : Prop :=
  forall k, k < n ->
    exists rs, observed c thread_id run k = Ok rs
               /\ is_terminal (status rs) = false.

(** The request gets as far as the poll loop: the client is there, the
    thread identifier is not empty, the message is added and the run
    [run] is created. *)
Definition accepted (g : Globals) (c : Client) (chat_request : ChatRequest)
  (run : Run) : Prop :=
  client g = Some c
  /\ str_empty (thread_id chat_request) = false
  /\ messages_create c (thread_id chat_request) "user" (message chat_request)
     = Ok tt
  /\ runs_create c (thread_id chat_request) (assistant_id g) = Ok run.

Definition is_error_500 {A} (r : result A) : bool :=
  match r with
  | Raised (HTTPException status_code _) => (status_code =? 500)%nat
  | _ => false
  end.

(** A log in which the first retrieval that reports a terminal status ends
    the polling: after ['completed'] no retrieval and no sleep follows;
    after any other terminal status the request has [failed] and neither a
    remote call nor a sleep follows. *)
Fixpoint settled (failed : bool) (log : list Event) : bool :=
  match log with
  | [] => true
  | RunsRetrieve _ _ (Ok rs) :: rest =>
      if is_terminal (status rs) then
        if status rs =? "completed" then none is_polling rest
        else failed && none is_remote_call rest && none is_sleep rest
      else settled failed rest
  | _ :: rest => settled failed rest
  end.

(** The detail of the error names the status of [rs] and carries the
    [last_error] of [rs] whenever there is one. *)
Definition passes_last_error_through (g : Globals) (chat_request : ChatRequest)
  (rs : RunStatus) : Prop :=
  exists detail,
    outcome (chat g chat_request) = Raised (HTTPException 500 detail)
    /\ contains (status rs) detail = true
    /\ forall e, last_error rs = Some e ->
         contains (str_LastError e) detail = true.

(** A retrieval that reported ['completed']. *)
Definition reports_completed (ev : Event) : bool :=
  match ev with
  | RunsRetrieve _ _ (Ok rs) => status rs =? "completed"
  | _ => false
  end.

(** An event of a request on the thread [thread_id] with the run [run_id]:
    a retrieval is for that thread and that run, a listing is for that
    thread with [limit=1], a sleep lasts [POLL_INTERVAL]. *)
Definition well_addressed (thread_id run_id : string) (ev : Event) : bool :=
  match ev with
  | RunsRetrieve t r _ => (t =? thread_id) && (r =? run_id)
  | MessagesList t limit => (t =? thread_id) && (limit =? 1)%nat
  | Sleep seconds => (seconds =? POLL_INTERVAL)%nat
  | _ => true
  end.

(** The status code of the exception a handler raised, if it raised an
    [HTTPException]. *)
Definition raised_status {A} (r : result A) : option nat :=
  match r with
  | Raised (HTTPException status_code _) => Some status_code
  | _ => None
  end.

(** ** Example scripts *)

Definition reporting (s : string) : RunStatus :=
  {| status := s; last_error := None |}.

(** A service that accepts everything, reports on the run with
    [statuses] and lists [messages]. *)
Definition scripted (statuses : nat -> RunStatus) (messages : list Message)
  : Client := {|
  threads_create := Ok {| thread_oid := "thread_1" |};
  messages_create := fun _ _ _ => Ok tt;
  runs_create := fun _ _ => Ok {| id := "run_1" |};
  runs_retrieve := fun k _ _ => Ok (statuses k);
  messages_list := fun _ _ => Ok {| data := messages |}
|}.

Definition configured_with (c : Client) : Globals :=
  {| client := Some c; assistant_id := Some "asst_1" |}.

Definition hello : ChatRequest :=
  {| thread_id := "thread_1"; message := "hello" |}.

Definition run_1 : Run := {| id := "run_1" |}.

(** The run is queued until the retrieval number [n] (counted from 1),
    which reports the status [s] and the error [e], as do the later ones. *)
Definition settles_on (n : nat) (s : string) (e : option LastError) (k : nat)
  : RunStatus :=
  if (S k <? n)%nat then reporting "queued"
  else {| status := s; last_error := e |}.

Definition completes_on (n : nat) : nat -> RunStatus :=
  settles_on n "completed" None.

Definition text_message (s : string) : Message :=
  {| content := [TextContentBlock {| value := s |}] |}.

(** The error of a run that failed on the rate limit, as the client library
    renders it. *)
Definition rate_limited : LastError :=
  {| str_LastError := "LastError(code='rate_limit_exceeded', message='quota')" |}.

(** A service given by its five answers. *)
Definition service (thread : Answer Thread) (added : Answer unit)
  (created : Answer Run) (statuses : nat -> Answer RunStatus)
  (listed : Answer MessageList) : Client := {|
  threads_create := thread;
  messages_create := fun _ _ _ => added;
  runs_create := fun _ _ => created;
  runs_retrieve := fun k _ _ => statuses k;
  messages_list := fun _ _ => listed
|}.

Definition unconfigured : Globals := {| client := None; assistant_id := None |}.

(** * Properties *)

(** ** The handlers on example scripts *)

Example chat_completed_on_third_retrieval :
  post_chat (configured_with (scripted (completes_on 3) [text_message "hi"]))
    {| body_thread_id := Some "thread_1"; body_message := Some "hello" |}
  = (Success {| response := "hi" |},
     [Print "Processing message for thread thread_1: hello";
      MessagesCreate "thread_1" "user" "hello";
      RunsCreate "thread_1" (Some "asst_1");
      RunsRetrieve "thread_1" "run_1" (Ok (reporting "queued"));
      Print "Run status: queued (attempt 1/60)";
      Sleep 1;
      RunsRetrieve "thread_1" "run_1" (Ok (reporting "queued"));
      Print "Run status: queued (attempt 2/60)";
      Sleep 1;
      RunsRetrieve "thread_1" "run_1" (Ok (reporting "completed"));
      Print "Run status: completed (attempt 3/60)";
      MessagesList "thread_1" 1;
      Print "Assistant response: hi..."]).
Proof. reflexivity. Qed.

Example chat_failed_run :
  post_chat
    (configured_with (scripted (settles_on 1 "failed" (Some rate_limited)) []))
    {| body_thread_id := Some "thread_1"; body_message := Some "hello" |}
  = (HTTPError 500
       "Run ended with status: failed - Error: LastError(code='rate_limit_exceeded', message='quota')",
     [Print "Processing message for thread thread_1: hello";
      MessagesCreate "thread_1" "user" "hello";
      RunsCreate "thread_1" (Some "asst_1");
      RunsRetrieve "thread_1" "run_1"
        (Ok {| status := "failed"; last_error := Some rate_limited |});
      Print "Run status: failed (attempt 1/60)";
      Print "Run ended with status: failed - Error: LastError(code='rate_limit_exceeded', message='quota')"]).
Proof. reflexivity. Qed.

Example chat_before_start_up :
  post_chat {| client := None; assistant_id := None |}
    {| body_thread_id := Some "thread_1"; body_message := Some "hello" |}
  = (HTTPError 500
       "Internal server error: 'NoneType' object has no attribute 'beta'",
     [Print "Processing message for thread thread_1: hello";
      Print "Error in chat endpoint: 'NoneType' object has no attribute 'beta'"]).
Proof. reflexivity. Qed.

Example chat_image_first :
  fst (post_chat
         (configured_with
            (scripted (completes_on 1)
               [{| content := [OtherContentBlock "ImageFileContentBlock";
                               TextContentBlock {| value := "hi" |}] |}]))
         {| body_thread_id := Some "thread_1"; body_message := Some "hello" |})
  = HTTPError 500
      "Internal server error: 'ImageFileContentBlock' object has no attribute 'text'".
Proof. reflexivity. Qed.

Example start_returns_thread :
  get_start (configured_with (scripted (completes_on 1) []))
  = (Success {| start_thread_id := "thread_1" |},
     [ThreadsCreate; Print "New thread created with ID: thread_1"]).
Proof. reflexivity. Qed.

(** After a successful start-up both globals are set, and [/health] says
    so. *)
Lemma lifespan_configures OpenAI environ g g' log :
  lifespan OpenAI environ g = (Returned tt, g', log) ->
  truthy (client g') = true /\ truthy (assistant_id g') = true.
Proof.
  unfold lifespan. cbn [assistant_id].
  destruct (env_set (OPENAI_API_KEY environ)); [|discriminate].
  destruct (ASSISTANT_ID environ) as [a|] eqn:Ha; cbn [negb env_set].
  - destruct (a =? ""); cbn [negb]; [discriminate|].
    intros H. injection H as <- _. split; reflexivity.
  - discriminate.
Qed.

(** ** The monad *)

Lemma bind_returned {A B} (m : M A) (f : A -> M B) served a served' log :
  m served = (Returned a, served', log) ->
  bind m f served = after log (f a served').
Proof. intros H. unfold bind, after. rewrite H. reflexivity. Qed.

Lemma bind_raised {A B} (m : M A) (f : A -> M B) served e served' log :
  m served = (Raised e, served', log) ->
  bind m f served = (Raised e, served', log).
Proof. intros H. unfold bind. rewrite H. reflexivity. Qed.

Lemma after_nil {A} (x : result A * nat * list Event) : after [] x = x.
Proof. destruct x as [[r s] l]. reflexivity. Qed.

Lemma after_after {A} l1 l2 (x : result A * nat * list Event) :
  after l1 (after l2 x) = after (l1 ++ l2) x.
Proof. destruct x as [[r s] l]. simpl. now rewrite app_assoc. Qed.

(** ** The loop, one iteration at a time *)

Lemma poll_exit g thread_id run attempts :
  MAX_POLL_ATTEMPTS <= attempts ->
  poll g thread_id run attempts = ret attempts.
Proof.
  intros H. rewrite poll_equation_1.
  destruct (lt_dec attempts MAX_POLL_ATTEMPTS); [lia | reflexivity].
Qed.

Lemma poll_iterate g thread_id run attempts :
  attempts < MAX_POLL_ATTEMPTS ->
  poll g thread_id run attempts =
  poll_iteration g thread_id run attempts (poll g thread_id run (attempts + 1)).
Proof.
  intros H. rewrite poll_equation_1.
  destruct (lt_dec attempts MAX_POLL_ATTEMPTS); [reflexivity | lia].
Qed.

(** Membership in the lists of statuses, as equations on the status. *)
Lemma failure_status_cases s :
  str_in s failure_statuses = true ->
  s = "cancelling" \/ s = "cancelled" \/ s = "expired" \/ s = "failed".
Proof.
  unfold str_in, failure_statuses. simpl.
  rewrite !orb_true_iff, !String.eqb_eq.
  intros [H | [H | [H | [H | H]]]]; auto; discriminate.
Qed.

Lemma failure_not_completed s :
  str_in s failure_statuses = true -> (s =? "completed") = false.
Proof.
  intros H. destruct (failure_status_cases s H) as [-> | [-> | [-> | ->]]];
    reflexivity.
Qed.

Lemma is_terminal_split s :
  is_terminal s =
  (s =? "completed") || str_in s failure_statuses || (s =? "requires_action").
Proof.
  unfold is_terminal, terminal_statuses, failure_statuses, str_in. simpl.
  now rewrite !orb_false_r, !orb_assoc.
Qed.

Lemma not_terminal s :
  is_terminal s = false ->
  (s =? "completed") = false /\ str_in s failure_statuses = false
  /\ (s =? "requires_action") = false.
Proof.
  rewrite is_terminal_split, !orb_false_iff. tauto.
Qed.

Section Iteration.

Variables (g : Globals) (c : Client) (thread_id : string) (run : Run).
Hypothesis configured : client g = Some c.

Variables (attempts served : nat) (next : M nat).

Let answer := runs_retrieve c served thread_id (id run).

Let status_line (rs : RunStatus) : Event :=
  Print ("Run status: " ++ status rs ++ " (attempt " ++ str_nat (attempts + 1)
         ++ "/" ++ str_nat MAX_POLL_ATTEMPTS ++ ")").

Lemma retrieve_returns rs :
  answer = Ok rs ->
  call_runs_retrieve g thread_id (id run) served =
  (Returned rs, S served, [RunsRetrieve thread_id (id run) (Ok rs)]).
Proof.
  intros H. unfold call_runs_retrieve, client_beta, bind.
  rewrite configured. unfold ret, get_served.
  fold answer. rewrite H. reflexivity.
Qed.

Lemma retrieve_raises msg :
  answer = Fail msg ->
  call_runs_retrieve g thread_id (id run) served =
  (Raised (Exception msg), S served,
   [RunsRetrieve thread_id (id run) (Fail msg)]).
Proof.
  intros H. unfold call_runs_retrieve, client_beta, bind.
  rewrite configured. unfold ret, get_served.
  fold answer. rewrite H. reflexivity.
Qed.

Lemma iteration_raises msg :
  answer = Fail msg ->
  poll_iteration g thread_id run attempts next served =
  (Raised (Exception msg), S served,
   [RunsRetrieve thread_id (id run) (Fail msg)]).
Proof.
  intros H. unfold poll_iteration.
  now rewrite (bind_raised _ _ _ _ _ _ (retrieve_raises _ H)).
Qed.

Lemma iteration_completed rs :
  answer = Ok rs -> status rs = "completed" ->
  poll_iteration g thread_id run attempts next served =
  (Returned attempts, S served,
   [RunsRetrieve thread_id (id run) (Ok rs); status_line rs]).
Proof.
  intros H Hs. unfold poll_iteration.
  rewrite (bind_returned _ _ _ _ _ _ (retrieve_returns _ H)).
  subst status_line. destruct rs as [st le]. simpl in Hs. subst st.
  reflexivity.
Qed.

Lemma iteration_failure rs :
  answer = Ok rs -> str_in (status rs) failure_statuses = true ->
  let error_msg :=
    "Run ended with status: " ++ status rs
    ++ (if (status rs =? "failed") && truthy (last_error rs)
        then " - Error: " ++ str_last_error (last_error rs) else "") in
  poll_iteration g thread_id run attempts next served =
  (Raised (HTTPException 500 error_msg), S served,
   [RunsRetrieve thread_id (id run) (Ok rs); status_line rs; Print error_msg]).
Proof.
  intros H Hs. unfold poll_iteration.
  rewrite (bind_returned _ _ _ _ _ _ (retrieve_returns _ H)).
  subst status_line. destruct rs as [st le]. simpl in Hs.
  destruct (failure_status_cases _ Hs) as [-> | [-> | [-> | ->]]];
    destruct le; reflexivity.
Qed.

Lemma iteration_requires_action rs :
  answer = Ok rs -> status rs = "requires_action" ->
  poll_iteration g thread_id run attempts next served =
  (Raised (HTTPException 500
             "Run requires action - function calling not implemented"),
   S served,
   [RunsRetrieve thread_id (id run) (Ok rs); status_line rs]).
Proof.
  intros H Hs. unfold poll_iteration.
  rewrite (bind_returned _ _ _ _ _ _ (retrieve_returns _ H)).
  subst status_line. destruct rs as [st le]. simpl in Hs. subst st.
  reflexivity.
Qed.

Lemma iteration_pending rs :
  answer = Ok rs -> is_terminal (status rs) = false ->
  poll_iteration g thread_id run attempts next served =
  after [RunsRetrieve thread_id (id run) (Ok rs); status_line rs;
         Sleep POLL_INTERVAL]
    (next (S served)).
Proof.
  intros H Hs. unfold poll_iteration.
  rewrite (bind_returned _ _ _ _ _ _ (retrieve_returns _ H)).
  destruct (not_terminal _ Hs) as (H1 & H2 & H3).
  unfold failure_statuses in H2.
  subst status_line. cbv beta zeta delta [bind print emit sleep after].
  rewrite H1, H2, H3.
  destruct (next (S served)) as [[r s'] l]. reflexivity.
Qed.

Lemma iteration_unconfigured g' :
  client g' = None ->
  poll_iteration g' thread_id run attempts next served =
  (Raised (Exception "'NoneType' object has no attribute 'beta'"), served, []).
Proof.
  intros H. unfold poll_iteration, call_runs_retrieve, client_beta, bind.
  rewrite H. reflexivity.
Qed.

End Iteration.

(** ** The loop as a whole *)

Lemma try_returned {A} (body : M A) handler served a served' log :
  body served = (Returned a, served', log) ->
  try_except body handler served = (Returned a, served', log).
Proof. intros H. unfold try_except. now rewrite H. Qed.

Lemma try_raised {A} (body : M A) handler served e served' log :
  body served = (Raised e, served', log) ->
  try_except body handler served = after log (handler e served').
Proof. intros H. unfold try_except, after. now rewrite H. Qed.

Section Polling.

Variables (g : Globals) (c : Client) (thread_id : string) (run : Run).
Hypothesis configured : client g = Some c.

(** What the script answers to the retrievals for this run. *)
Let answers (k : nat) : Answer RunStatus :=
  runs_retrieve c k thread_id (id run).

(** The loop runs through [n] iterations whose status is not terminal. *)
Lemma poll_pending n : forall attempts served,
  attempts + n <= MAX_POLL_ATTEMPTS ->
  (forall k, k < n ->
     exists rs, answers (served + k) = Ok rs /\ is_terminal (status rs) = false) ->
  poll g thread_id run attempts served =
  after (polled thread_id (id run) answers attempts served n)
    (poll g thread_id run (attempts + n) (served + n)).
Proof.
  induction n as [|n IH]; intros attempts served Hle Hpending.
  - rewrite !Nat.add_0_r. now rewrite after_nil.
  - destruct (Hpending 0) as (rs & Hrs & Hnt); [lia|].
    rewrite Nat.add_0_r in Hrs.
    rewrite poll_iterate by lia.
    rewrite (iteration_pending g c thread_id run configured _ _ _ rs Hrs Hnt).
    rewrite IH.
    + rewrite after_after. simpl polled. rewrite Hrs.
      replace (attempts + 1 + n) with (attempts + S n) by lia.
      replace (S served + n) with (served + S n) by lia.
      reflexivity.
    + lia.
    + intros k Hk. replace (S served + k) with (served + S k) by lia.
      apply Hpending. lia.
Qed.

End Polling.

(** ** Counting events *)

Lemma count_app p l1 l2 : count p (l1 ++ l2) = count p l1 + count p l2.
Proof. unfold count. now rewrite filter_app, length_app. Qed.

Lemma none_app p l1 l2 : none p (l1 ++ l2) = none p l1 && none p l2.
Proof. unfold none. apply forallb_app. Qed.

Lemma none_count p l : none p l = true -> count p l = 0.
Proof.
  unfold none, count. induction l as [|ev l IH]; simpl; [reflexivity|].
  destruct (p ev); simpl; [discriminate | exact IH].
Qed.

Lemma polled_retrievals t r answers n : forall attempts served,
  count is_retrieval (polled t r answers attempts served n) = n.
Proof.
  induction n as [|n IH]; intros attempts served; [reflexivity|].
  simpl polled. change (S n) with (1 + n). rewrite <- (IH (attempts + 1) (S served)) at 2.
  reflexivity.
Qed.

Lemma polled_sleeps t r answers n : forall attempts served,
  count is_sleep (polled t r answers attempts served n) = n.
Proof.
  induction n as [|n IH]; intros attempts served; [reflexivity|].
  simpl polled. change (S n) with (1 + n). rewrite <- (IH (attempts + 1) (S served)) at 2.
  reflexivity.
Qed.

Lemma polled_no_listing t r answers n : forall attempts served,
  none is_listing (polled t r answers attempts served n) = true.
Proof.
  induction n as [|n IH]; intros attempts served; [reflexivity|].
  simpl polled. exact (IH (attempts + 1) (S served)).
Qed.

(** ** [chat] around the loop *)

(** Closes an equation between two executions that differ by the
    bracketing of their logs. *)
Ltac settle :=
  unfold raise, ret, after;
  repeat rewrite <- app_assoc; rewrite ?app_nil_r;
  reflexivity.

Section Chat.

Variables (g : Globals) (c : Client) (chat_request : ChatRequest) (run : Run).

Let t := thread_id chat_request.

Hypothesis configured : client g = Some c.
Hypothesis thread_given : str_empty t = false.
Hypothesis message_added :
  messages_create c t "user" (message chat_request) = Ok tt.
Hypothesis run_created : runs_create c t (assistant_id g) = Ok run.

(** The events of [chat] before the loop. *)
Let opening : list Event :=
  [Print ("Processing message for thread " ++ t ++ ": " ++ message chat_request);
   MessagesCreate t "user" (message chat_request);
   RunsCreate t (assistant_id g)].

Lemma message_create_returns served :
  call_messages_create g t "user" (message chat_request) served =
  (Returned tt, served, [MessagesCreate t "user" (message chat_request)]).
Proof.
  unfold call_messages_create, client_beta, bind. rewrite configured.
  unfold ret, emit. rewrite message_added. reflexivity.
Qed.

Lemma run_create_returns served :
  call_runs_create g t (assistant_id g) served =
  (Returned run, served, [RunsCreate t (assistant_id g)]).
Proof.
  unfold call_runs_create, client_beta, bind. rewrite configured.
  unfold ret, emit. rewrite run_created. reflexivity.
Qed.

Lemma messages_list_answers limit served :
  call_messages_list g t limit served =
  match messages_list c t limit with
  | Ok messages => (Returned messages, served, [MessagesList t limit])
  | Fail msg => (Raised (Exception msg), served, [MessagesList t limit])
  end.
Proof.
  unfold call_messages_list, client_beta, bind. rewrite configured.
  unfold ret, emit. now destruct (messages_list c t limit).
Qed.

(** The loop raised an [HTTPException]: [chat] raises it unchanged. *)
Lemma chat_loop_raised_http status_code detail served log :
  poll g t run 0 0 = (Raised (HTTPException status_code detail), served, log) ->
  chat g chat_request 0 =
  (Raised (HTTPException status_code detail), served, (opening ++ log)%list).
Proof.
  intros Hpoll. unfold chat. fold t. rewrite thread_given.
  erewrite bind_returned by reflexivity.
  erewrite try_raised.
  2:{ erewrite bind_returned by apply message_create_returns.
      erewrite bind_returned by apply run_create_returns.
      erewrite bind_raised by exact Hpoll.
      reflexivity. }
  settle.
Qed.

(** The loop raised another exception: [chat] reports it as status 500. *)
Lemma chat_loop_raised_other msg served log :
  poll g t run 0 0 = (Raised (Exception msg), served, log) ->
  chat g chat_request 0 =
  (Raised (HTTPException 500 ("Internal server error: " ++ msg)), served,
   (opening ++ log ++ [Print ("Error in chat endpoint: " ++ msg)])%list).
Proof.
  intros Hpoll. unfold chat. fold t. rewrite thread_given.
  erewrite bind_returned by reflexivity.
  erewrite try_raised.
  2:{ erewrite bind_returned by apply message_create_returns.
      erewrite bind_returned by apply run_create_returns.
      erewrite bind_raised by exact Hpoll.
      reflexivity. }
  cbv beta iota.
  erewrite bind_returned by reflexivity.
  settle.
Qed.

(** The loop was left with the budget used up. *)
Lemma chat_loop_exhausted attempts served log :
  poll g t run 0 0 = (Returned attempts, served, log) ->
  MAX_POLL_ATTEMPTS <= attempts ->
  chat g chat_request 0 =
  (Raised (HTTPException 504
             "Request timeout: Assistant did not respond in time"),
   served, (opening ++ log)%list).
Proof.
  intros Hpoll Hle. unfold chat. fold t. rewrite thread_given.
  erewrite bind_returned by reflexivity.
  erewrite try_raised.
  2:{ erewrite bind_returned by apply message_create_returns.
      erewrite bind_returned by apply run_create_returns.
      erewrite bind_returned by exact Hpoll.
      apply Nat.leb_le in Hle. rewrite Hle.
      reflexivity. }
  settle.
Qed.

(** The loop was left by [break]: the messages are listed once, with
    [limit=1], and only printing follows. *)
Lemma chat_loop_broken attempts served log :
  poll g t run 0 0 = (Returned attempts, served, log) ->
  attempts < MAX_POLL_ATTEMPTS ->
  exists r closing,
    chat g chat_request 0 =
    (r, served, (opening ++ log ++ MessagesList t 1 :: closing)%list)
    /\ forallb is_print closing = true.
Proof.
  intros Hpoll Hlt. apply Nat.leb_gt in Hlt.
  unfold chat. fold t. rewrite thread_given.
  erewrite bind_returned by reflexivity.
  unfold try_except.
  erewrite bind_returned by apply message_create_returns.
  erewrite bind_returned by apply run_create_returns.
  erewrite bind_returned by exact Hpoll.
  rewrite Hlt.
  pose proof (messages_list_answers 1 served) as Hlist.
  destruct (messages_list c t 1) as [[[|[[|[text|type_name] blocks]] ms]]|msg].
  all: first [ erewrite bind_returned by exact Hlist
             | erewrite bind_raised by exact Hlist ].
  all: eexists; eexists; split; [simpl; settle | reflexivity].
Qed.

(** After [break], an empty list of messages. *)
Lemma chat_no_message attempts served log messages :
  poll g t run 0 0 = (Returned attempts, served, log) ->
  attempts < MAX_POLL_ATTEMPTS ->
  messages_list c t 1 = Ok messages ->
  data messages = [] ->
  chat g chat_request 0 =
  (Raised (HTTPException 500 "No response from assistant"), served,
   (opening ++ log ++ [MessagesList t 1])%list).
Proof.
  intros Hpoll Hlt Hml Hdata. apply Nat.leb_gt in Hlt.
  pose proof (messages_list_answers 1 served) as Hlist. rewrite Hml in Hlist.
  unfold chat. fold t. rewrite thread_given.
  erewrite bind_returned by reflexivity.
  unfold try_except.
  erewrite bind_returned by apply message_create_returns.
  erewrite bind_returned by apply run_create_returns.
  erewrite bind_returned by exact Hpoll.
  rewrite Hlt.
  erewrite bind_returned by exact Hlist.
  rewrite Hdata. simpl. settle.
Qed.

(** After [break], a list whose first message starts with a text block. *)
Lemma chat_first_text attempts served log messages m ms text blocks :
  poll g t run 0 0 = (Returned attempts, served, log) ->
  attempts < MAX_POLL_ATTEMPTS ->
  messages_list c t 1 = Ok messages ->
  data messages = m :: ms ->
  content m = TextContentBlock text :: blocks ->
  chat g chat_request 0 =
  (Returned {| response := value text |}, served,
   (opening ++ log
    ++ [MessagesList t 1;
        Print ("Assistant response: " ++ substring 0 100 (value text) ++ "...")])%list).
Proof.
  intros Hpoll Hlt Hml Hdata Hcontent. apply Nat.leb_gt in Hlt.
  pose proof (messages_list_answers 1 served) as Hlist. rewrite Hml in Hlist.
  unfold chat. fold t. rewrite thread_given.
  erewrite bind_returned by reflexivity.
  unfold try_except.
  erewrite bind_returned by apply message_create_returns.
  erewrite bind_returned by apply run_create_returns.
  erewrite bind_returned by exact Hpoll.
  rewrite Hlt.
  erewrite bind_returned by exact Hlist.
  unfold first_text_value. rewrite Hdata, Hcontent. simpl. settle.
Qed.

End Chat.

(** ** The loop under a script *)

Lemma printing_is_quiet p closing :
  (forall ev, is_print ev = true -> p ev = false) ->
  forallb is_print closing = true -> count p closing = 0.
Proof.
  intros Hp. unfold count. induction closing as [|ev l IH]; simpl; [reflexivity|].
  intros H. apply andb_true_iff in H as [Hev Hl].
  rewrite (Hp ev Hev). auto.
Qed.

Section Script.

Variables (g : Globals) (c : Client) (thread_id : string) (run : Run).
Hypothesis configured : client g = Some c.

(** [n] pending iterations lead to iteration [n] of the loop. *)
Lemma poll_reaches n :
  pending_for c thread_id run n -> n < MAX_POLL_ATTEMPTS ->
  poll g thread_id run 0 0 =
  after (polled thread_id (id run) (observed c thread_id run) 0 0 n)
    (poll_iteration g thread_id run n (poll g thread_id run (n + 1)) n).
Proof.
  intros Hpending Hlt.
  rewrite (poll_pending g c thread_id run configured n 0 0) by (lia || exact Hpending).
  simpl Nat.add. now rewrite poll_iterate by exact Hlt.
Qed.

(** A run that stays pending for the whole budget. *)
Lemma poll_runs_out :
  pending_for c thread_id run MAX_POLL_ATTEMPTS ->
  poll g thread_id run 0 0 =
  (Returned MAX_POLL_ATTEMPTS, MAX_POLL_ATTEMPTS,
   polled thread_id (id run) (observed c thread_id run) 0 0 MAX_POLL_ATTEMPTS).
Proof.
  intros Hpending.
  rewrite (poll_pending g c thread_id run configured MAX_POLL_ATTEMPTS 0 0)
    by (lia || exact Hpending).
  simpl Nat.add. rewrite poll_exit by lia. unfold ret, after.
  now rewrite app_nil_r.
Qed.

End Script.

(** ** The attempt budget *)

(** C1.  When the first 60 status retrievals all report a status that is not
    terminal, [chat] raises the timeout error, which the caller receives with
    status 504; the whole request makes exactly 60 status retrievals, so none
    follows the exhaustion of the budget, and the messages are not listed. *)
Theorem budget_exhausted_times_out g c chat_request run :
  accepted g c chat_request run ->
  pending_for c (thread_id chat_request) run MAX_POLL_ATTEMPTS ->
  outcome (chat g chat_request) =
    Raised (HTTPException 504 "Request timeout: Assistant did not respond in time")
  /\ http_status (respond (outcome (chat g chat_request))) = 504
  /\ count is_retrieval (events (chat g chat_request)) = MAX_POLL_ATTEMPTS
  /\ count is_listing (events (chat g chat_request)) = 0.
Proof.
  intros (Hc & Ht & Hm & Hr) Hpending.
  pose proof (poll_runs_out g c _ run Hc Hpending) as Hpoll.
  pose proof (chat_loop_exhausted g c chat_request run Hc Ht Hm Hr _ _ _ Hpoll
                (le_n _)) as Hchat.
  unfold outcome, events. rewrite Hchat. cbn [fst snd].
  split; [reflexivity|]. split; [reflexivity|]. split.
  - rewrite count_app, polled_retrievals. reflexivity.
  - rewrite count_app.
    rewrite (none_count is_listing (polled _ _ _ _ _ _)) by apply polled_no_listing.
    reflexivity.
Qed.

Lemma budget_exhausted_times_out_witness :
  let c := scripted (fun _ => reporting "queued") [] in
  accepted (configured_with c) c hello run_1
  /\ pending_for c (thread_id hello) run_1 MAX_POLL_ATTEMPTS
  /\ outcome (chat (configured_with c) hello) =
     Raised (HTTPException 504 "Request timeout: Assistant did not respond in time")
  /\ http_status (respond (outcome (chat (configured_with c) hello))) = 504
  /\ count is_retrieval (events (chat (configured_with c) hello)) = 60
  /\ count is_listing (events (chat (configured_with c) hello)) = 0.
Proof.
  intros c.
  assert (Ha : accepted (configured_with c) c hello run_1)
    by (unfold accepted; auto).
  assert (Hp : pending_for c (thread_id hello) run_1 MAX_POLL_ATTEMPTS)
    by (intros k _; eexists; split; reflexivity).
  exact (conj Ha (conj Hp (budget_exhausted_times_out _ _ _ _ Ha Hp))).
Defined.

(** ** Completion *)

Lemma waiting_is_pending s :
  s = "queued" \/ s = "in_progress" -> is_terminal s = false.
Proof. intros [-> | ->]; reflexivity. Qed.

(** C2.  For every [n] between 1 and 60: when the first [n - 1] status
    retrievals report ['queued'] or ['in_progress'] and retrieval number [n]
    reports ['completed'], the request makes exactly [n] status retrievals. *)
Theorem completed_on_attempt_n g c chat_request run n :
  1 <= n <= MAX_POLL_ATTEMPTS ->
  accepted g c chat_request run ->
  (forall k, k < n - 1 ->
     exists rs, observed c (thread_id chat_request) run k = Ok rs
                /\ (status rs = "queued" \/ status rs = "in_progress")) ->
  (exists rs, observed c (thread_id chat_request) run (n - 1) = Ok rs
              /\ status rs = "completed") ->
  count is_retrieval (events (chat g chat_request)) = n.
Proof.
  intros Hn (Hc & Ht & Hm & Hr) Hwait (rs & Hrs & Hdone).
  assert (Hpending : pending_for c (thread_id chat_request) run (n - 1)).
  { intros k Hk. destruct (Hwait k Hk) as (rs' & Hrs' & Hs).
    exists rs'. split; [exact Hrs' | now apply waiting_is_pending]. }
  pose proof (poll_reaches g c _ run Hc (n - 1) Hpending ltac:(lia)) as Hpoll.
  rewrite (iteration_completed g c _ run Hc _ _ _ rs Hrs Hdone) in Hpoll.
  unfold after in Hpoll.
  destruct (chat_loop_broken g c chat_request run Hc Ht Hm Hr _ _ _ Hpoll
              ltac:(lia)) as (r & closing & Hchat & Hclosing).
  unfold events. rewrite Hchat. cbn [snd].
  rewrite !count_app, polled_retrievals.
  change (MessagesList (thread_id chat_request) 1 :: closing)
    with ([MessagesList (thread_id chat_request) 1] ++ closing)%list.
  rewrite count_app, (printing_is_quiet is_retrieval closing); [| | exact Hclosing].
  - unfold count. simpl. lia.
  - now intros [].
Qed.

Lemma completed_on_attempt_n_witness :
  let c := scripted (completes_on 3) [text_message "hi"] in
  count is_retrieval (events (chat (configured_with c) hello)) = 3.
Proof.
  intros c.
  apply (completed_on_attempt_n (configured_with c) c hello run_1 3).
  - unfold MAX_POLL_ATTEMPTS. lia.
  - unfold accepted. auto.
  - intros k Hk. exists (completes_on 3 k). split; [reflexivity|].
    destruct k as [|[|k]]; [left; reflexivity | left; reflexivity | simpl in Hk; lia].
  - exists (completes_on 3 2). split; reflexivity.
Defined.

(** ** Terminal statuses *)

Lemma poll_settled g thread_id run : forall n attempts served,
  MAX_POLL_ATTEMPTS - attempts = n ->
  settled (is_error_500 (fst (fst (poll g thread_id run attempts served))))
    (snd (poll g thread_id run attempts served)) = true.
Proof.
  induction n as [|n IH]; intros attempts served Hn.
  - rewrite poll_exit by lia. reflexivity.
  - rewrite poll_iterate by lia.
    destruct (client g) as [c|] eqn:Hc;
      [| now rewrite iteration_unconfigured].
    destruct (runs_retrieve c served thread_id (id run)) as [rs|msg] eqn:Ha;
      [| now rewrite (iteration_raises g c _ run Hc _ _ _ msg Ha)].
    destruct (is_terminal (status rs)) eqn:Hterm.
    + pose proof Hterm as Hsplit. rewrite is_terminal_split in Hsplit.
      apply orb_true_iff in Hsplit as [Hsplit | Hreq].
      apply orb_true_iff in Hsplit as [Hdone | Hfail].
      * apply String.eqb_eq in Hdone.
        rewrite (iteration_completed g c _ run Hc _ _ _ rs Ha Hdone).
        cbn [fst snd settled]. rewrite Hterm, Hdone. reflexivity.
      * rewrite (iteration_failure g c _ run Hc _ _ _ rs Ha Hfail).
        cbn [fst snd settled is_error_500].
        rewrite Hterm, (failure_not_completed _ Hfail). reflexivity.
      * apply String.eqb_eq in Hreq.
        rewrite (iteration_requires_action g c _ run Hc _ _ _ rs Ha Hreq).
        cbn [fst snd settled is_error_500]. rewrite Hterm, Hreq. reflexivity.
    + rewrite (iteration_pending g c _ run Hc _ _ _ rs Ha Hterm).
      specialize (IH (attempts + 1) (S served) ltac:(lia)).
      destruct (poll g thread_id run (attempts + 1) (S served)) as [[r s] l].
      cbn [after fst snd app settled] in *. rewrite Hterm. exact IH.
Qed.

Lemma none_polling l :
  none is_remote_call l = true -> none is_sleep l = true ->
  none is_polling l = true.
Proof.
  unfold none. induction l as [|ev l IH]; simpl; [reflexivity|].
  rewrite !andb_true_iff. intros [H1 H2] [H3 H4]. split; [|auto].
  now destruct ev.
Qed.

(** Reading [settled] at a position of the log. *)
Lemma settled_at failed t r rs post : forall pre,
  settled failed (pre ++ RunsRetrieve t r (Ok rs) :: post) = true ->
  is_terminal (status rs) = true ->
  none is_polling post = true
  /\ (status rs <> "completed" ->
      failed = true /\ none is_remote_call post = true).
Proof.
  assert (Hstop : forall (l : list Event),
             none is_polling (l ++ RunsRetrieve t r (Ok rs) :: post) = false).
  { intros l. rewrite none_app. simpl. apply andb_false_r. }
  assert (Hstop' : forall (l : list Event),
             none is_remote_call (l ++ RunsRetrieve t r (Ok rs) :: post) = false).
  { intros l. rewrite none_app. simpl. apply andb_false_r. }
  induction pre as [|ev pre IH]; intros H Hterm.
  - cbn [app settled] in H. rewrite Hterm in H.
    destruct (status rs =? "completed") eqn:Hdone.
    + split; [exact H|]. apply String.eqb_eq in Hdone. intros Hn. now elim Hn.
    + apply andb_true_iff in H as [H Hsleep].
      apply andb_true_iff in H as [Hfailed Hremote].
      split; [now apply none_polling | auto].
  - destruct ev as [line| |? ? ?|? ?|t' r' [rs'|msg]|?|? ?];
      cbn [app settled] in H; try (now apply IH).
    destruct (is_terminal (status rs')); [|now apply IH].
    destruct (status rs' =? "completed").
    + now rewrite Hstop in H.
    + rewrite Hstop', andb_false_r in H. discriminate.
Qed.

Lemma settled_extend failed closing : forall log,
  settled false log = true -> none is_polling closing = true ->
  settled failed (log ++ closing) = true.
Proof.
  induction log as [|ev log IH]; intros H Hclosing.
  - clear H. induction closing as [|ev l IH]; [reflexivity|].
    simpl in Hclosing. apply andb_true_iff in Hclosing as [Hev Hl].
    destruct ev as [line| |? ? ?|? ?|t' r' a|?|? ?]; try discriminate;
      cbn [app settled]; auto.
  - destruct ev as [line| |? ? ?|? ?|t' r' [rs'|msg]|?|? ?];
      cbn [app settled] in *; auto.
    destruct (is_terminal (status rs')); [|auto].
    destruct (status rs' =? "completed"); [|discriminate].
    rewrite none_app, H. exact Hclosing.
Qed.

Lemma printing_is_not_polling closing :
  forallb is_print closing = true -> none is_polling closing = true.
Proof.
  unfold none. induction closing as [|ev l IH]; simpl; [reflexivity|].
  rewrite !andb_true_iff. intros [Hev Hl]. split; [|auto]. now destruct ev.
Qed.

Section Refused.

Variables (g : Globals) (chat_request : ChatRequest).

Hypothesis thread_given : str_empty (thread_id chat_request) = false.

(** [chat] when the first remote call raises. *)
Lemma chat_message_not_added served log msg :
  call_messages_create g (thread_id chat_request) "user" (message chat_request) 0
  = (Raised (Exception msg), served, log) ->
  is_error_500 (outcome (chat g chat_request)) = true
  /\ exists opening closing,
       events (chat g chat_request) = (opening :: log ++ closing)%list
       /\ is_print opening = true /\ forallb is_print closing = true.
Proof.
  intros H. unfold outcome, events, chat. rewrite thread_given.
  erewrite bind_returned by reflexivity.
  erewrite try_raised by (erewrite bind_raised by exact H; reflexivity).
  cbv beta iota. erewrite bind_returned by reflexivity.
  split; [reflexivity|]. eexists; eexists.
  split; [unfold raise, after; cbn [fst snd app]; reflexivity|].
  split; reflexivity.
Qed.

(** [chat] when the creation of the run raises. *)
Lemma chat_run_not_created served log served' log' msg :
  call_messages_create g (thread_id chat_request) "user" (message chat_request) 0
  = (Returned tt, served, log) ->
  call_runs_create g (thread_id chat_request) (assistant_id g) served
  = (Raised (Exception msg), served', log') ->
  is_error_500 (outcome (chat g chat_request)) = true
  /\ exists opening closing,
       events (chat g chat_request) = (opening :: (log ++ log') ++ closing)%list
       /\ is_print opening = true /\ forallb is_print closing = true.
Proof.
  intros H H'. unfold outcome, events, chat. rewrite thread_given.
  erewrite bind_returned by reflexivity.
  erewrite try_raised
    by (erewrite bind_returned by exact H; erewrite bind_raised by exact H';
        reflexivity).
  cbv beta iota. erewrite bind_returned by reflexivity.
  split; [reflexivity|]. eexists; eexists.
  split; [unfold raise, after; cbn [fst snd app]; reflexivity|].
  split; reflexivity.
Qed.

End Refused.

Lemma settled_without_retrieval failed log :
  none is_retrieval log = true -> settled failed log = true.
Proof.
  unfold none. induction log as [|ev l IH]; simpl; [reflexivity|].
  intros H. apply andb_true_iff in H as [Hev Hl].
  destruct ev; try discriminate; auto.
Qed.

Lemma printing_is_not_retrieval closing :
  forallb is_print closing = true -> none is_retrieval closing = true.
Proof.
  unfold none. induction closing as [|ev l IH]; simpl; [reflexivity|].
  rewrite !andb_true_iff. intros [Hev Hl]. split; [|auto]. now destruct ev.
Qed.

(** Every execution of [chat] is settled, whatever the globals, the request
    and the script. *)
Lemma chat_settled g chat_request :
  settled (is_error_500 (outcome (chat g chat_request)))
    (events (chat g chat_request)) = true.
Proof.
  destruct (str_empty (thread_id chat_request)) eqn:Ht.
  { unfold outcome, events, chat. rewrite Ht. reflexivity. }
  destruct (client g) as [c|] eqn:Hc.
  2:{ destruct (chat_message_not_added g chat_request Ht 0 []
                  "'NoneType' object has no attribute 'beta'")
        as (_ & opening & closing & Hlog & Ho & Hcl).
      { unfold call_messages_create, client_beta, bind. now rewrite Hc. }
      rewrite Hlog. apply settled_without_retrieval.
      change (opening :: [] ++ closing)%list with ([opening] ++ closing)%list.
      rewrite none_app, (printing_is_not_retrieval closing Hcl), andb_true_r.
      now destruct opening. }
  destruct (messages_create c (thread_id chat_request) "user"
              (message chat_request)) as [[]|msg] eqn:Hm.
  2:{ destruct (chat_message_not_added g chat_request Ht 0
                  [MessagesCreate (thread_id chat_request) "user"
                     (message chat_request)] msg)
        as (_ & opening & closing & Hlog & Ho & Hcl).
      { unfold call_messages_create, client_beta, bind. rewrite Hc.
        unfold ret, emit. now rewrite Hm. }
      rewrite Hlog. apply settled_without_retrieval.
      cbn [none forallb app is_retrieval negb andb].
      fold (none is_retrieval closing).
      rewrite (printing_is_not_retrieval closing Hcl), andb_true_r.
      now destruct opening. }
  destruct (runs_create c (thread_id chat_request) (assistant_id g))
    as [run|msg] eqn:Hr.
  2:{ destruct (chat_run_not_created g chat_request Ht 0
                  [MessagesCreate (thread_id chat_request) "user"
                     (message chat_request)]
                  0 [RunsCreate (thread_id chat_request) (assistant_id g)] msg)
        as (_ & opening & closing & Hlog & Ho & Hcl).
      { apply (message_create_returns g c chat_request Hc Hm). }
      { unfold call_runs_create, client_beta, bind. rewrite Hc.
        unfold ret, emit. now rewrite Hr. }
      rewrite Hlog. apply settled_without_retrieval.
      cbn [none forallb app is_retrieval negb andb].
      fold (none is_retrieval closing).
      rewrite (printing_is_not_retrieval closing Hcl), andb_true_r.
      now destruct opening. }
  pose proof (poll_settled g (thread_id chat_request) run _ 0 0 eq_refl) as Hs.
  destruct (poll g (thread_id chat_request) run 0 0) as [[r served] log] eqn:Hpoll.
  cbn [fst snd] in Hs. unfold outcome, events.
  destruct r as [attempts|[status_code detail|msg]].
  - destruct (le_lt_dec MAX_POLL_ATTEMPTS attempts) as [Hle|Hlt].
    + rewrite (chat_loop_exhausted g c chat_request run Hc Ht Hm Hr _ _ _ Hpoll Hle).
      exact Hs.
    + destruct (chat_loop_broken g c chat_request run Hc Ht Hm Hr _ _ _ Hpoll Hlt)
        as (r & closing & Hchat & Hclosing).
      rewrite Hchat. cbn [fst snd app settled].
      apply settled_extend; [exact Hs|].
      cbn [none forallb is_polling is_retrieval is_sleep orb negb andb].
      exact (printing_is_not_polling _ Hclosing).
  - rewrite (chat_loop_raised_http g c chat_request run Hc Ht Hm Hr _ _ _ _ Hpoll).
    exact Hs.
  - rewrite (chat_loop_raised_other g c chat_request run Hc Ht Hm Hr _ _ _ Hpoll).
    cbn [fst snd app settled]. now apply settled_extend.
Qed.

(** C3.  In every execution of [chat]: once a status retrieval has reported a
    terminal status, no status retrieval and no sleep follows in the log.
    When that status is not ['completed'], the request moreover ends in an
    error of status 500 and no call to the service follows at all. *)
Theorem terminal_status_ends_polling g chat_request pre t r rs post :
  events (chat g chat_request) = (pre ++ RunsRetrieve t r (Ok rs) :: post)%list ->
  is_terminal (status rs) = true ->
  none is_polling post = true
  /\ (status rs <> "completed" ->
      (exists detail,
         outcome (chat g chat_request) = Raised (HTTPException 500 detail))
      /\ none is_remote_call post = true).
Proof.
  intros Hlog Hterm.
  pose proof (chat_settled g chat_request) as Hs. rewrite Hlog in Hs.
  destruct (settled_at _ _ _ _ _ _ Hs Hterm) as [Hquiet Hfail].
  split; [exact Hquiet|]. intros Hn. destruct (Hfail Hn) as [H500 Hremote].
  split; [|exact Hremote].
  destruct (outcome (chat g chat_request)) as [a|[code detail|msg]];
    try discriminate.
  apply Nat.eqb_eq in H500. subst code. now exists detail.
Qed.

Lemma terminal_status_ends_polling_witness :
  let c := scripted (settles_on 2 "failed" None) [] in
  let log := events (chat (configured_with c) hello) in
  none is_polling (skipn 7 log) = true
  /\ ((exists detail,
         outcome (chat (configured_with c) hello)
         = Raised (HTTPException 500 detail))
      /\ none is_remote_call (skipn 7 log) = true).
Proof.
  intros c log.
  destruct (terminal_status_ends_polling (configured_with c) hello
              (firstn 6 log) "thread_1" "run_1" (reporting "failed")
              (skipn 7 log))
    as [Hquiet Hfail]; [reflexivity | reflexivity |].
  split; [exact Hquiet|]. apply Hfail. discriminate.
Defined.

(** ** Failure statuses *)

Lemma prefix_append s q : prefix s (s ++ q) = true.
Proof.
  induction s as [|a s IH]; simpl; [now destruct q|].
  destruct (ascii_dec a a); [exact IH | congruence].
Qed.

Lemma append_empty s : s ++ "" = s.
Proof. induction s as [|a s IH]; simpl; [reflexivity | now rewrite IH]. Qed.

Lemma contains_here needle hay : prefix needle hay = true -> contains needle hay = true.
Proof. intros H. destruct hay; cbn [contains]; now rewrite H. Qed.

Lemma contains_prefix s q : contains s (s ++ q) = true.
Proof. apply contains_here, prefix_append. Qed.

Lemma contains_append p s q : contains s (p ++ s ++ q) = true.
Proof.
  induction p as [|a p IH]; simpl.
  - apply contains_prefix.
  - rewrite IH. apply orb_true_r.
Qed.

(** C4, as the code has it.  When a status retrieval within the budget
    reports ['cancelling'], ['cancelled'], ['expired'] or ['failed'], [chat]
    raises an [HTTPException] of status 500 whose detail names the status.
    The [last_error] of the run, as [str] renders the object, is appended to
    the detail when the status is ['failed'] and [last_error] is present; for
    the other three statuses, and without a [last_error], the detail is the
    status line alone. *)
Theorem failure_status_reported g c chat_request run n rs :
  accepted g c chat_request run ->
  pending_for c (thread_id chat_request) run n ->
  n < MAX_POLL_ATTEMPTS ->
  observed c (thread_id chat_request) run n = Ok rs ->
  str_in (status rs) failure_statuses = true ->
  exists detail,
    outcome (chat g chat_request) = Raised (HTTPException 500 detail)
    /\ contains (status rs) detail = true
    /\ (status rs = "failed" ->
        forall e, last_error rs = Some e ->
          detail = "Run ended with status: failed - Error: " ++ str_LastError e)
    /\ (status rs <> "failed" \/ last_error rs = None ->
        detail = "Run ended with status: " ++ status rs).
Proof.
  intros (Hc & Ht & Hm & Hr) Hpending Hlt Hrs Hfail.
  pose proof (poll_reaches g c _ run Hc n Hpending Hlt) as Hpoll.
  rewrite (iteration_failure g c _ run Hc _ _ _ rs Hrs Hfail) in Hpoll.
  unfold after in Hpoll.
  pose proof (chat_loop_raised_http g c chat_request run Hc Ht Hm Hr _ _ _ _ Hpoll)
    as Hchat.
  eexists. unfold outcome. rewrite Hchat. cbn [fst].
  split; [reflexivity|]. split; [apply contains_append|]. split.
  - intros Hs e He. rewrite Hs, He. reflexivity.
  - intros [Hs | He].
    + apply String.eqb_neq in Hs. rewrite Hs. cbn [andb]. now rewrite append_empty.
    + rewrite He, andb_false_r. now rewrite append_empty.
Qed.

Lemma failure_status_reported_witness :
  let c := scripted (settles_on 2 "failed" (Some rate_limited)) [] in
  exists detail,
    outcome (chat (configured_with c) hello) = Raised (HTTPException 500 detail)
    /\ contains "failed" detail = true
    /\ detail = "Run ended with status: failed - Error: LastError(code='rate_limit_exceeded', message='quota')".
Proof.
  intros c.
  destruct (failure_status_reported (configured_with c) c hello run_1 1
              {| status := "failed"; last_error := Some rate_limited |})
    as (detail & Hout & Hnames & Hfailed & _).
  - unfold accepted. auto.
  - intros k Hk. exists (reporting "queued"). split; [|reflexivity].
    destruct k as [|k]; [reflexivity | lia].
  - unfold MAX_POLL_ATTEMPTS. lia.
  - reflexivity.
  - reflexivity.
  - exists detail. split; [exact Hout|]. split; [exact Hnames|].
    exact (Hfailed eq_refl rate_limited eq_refl).
Defined.

(** A run that reports ['expired'] together with a [last_error]: the detail
    of the error does not carry the [last_error]. *)
Lemma last_error_dropped_when_expired :
  let rs := {| status := "expired"; last_error := Some rate_limited |} in
  let c := scripted (fun _ => rs) [] in
  accepted (configured_with c) c hello run_1
  /\ observed c (thread_id hello) run_1 0 = Ok rs
  /\ str_in (status rs) failure_statuses = true
  /\ outcome (chat (configured_with c) hello)
     = Raised (HTTPException 500 "Run ended with status: expired")
  /\ ~ passes_last_error_through (configured_with c) hello rs.
Proof.
  intros rs c.
  assert (Hout : outcome (chat (configured_with c) hello)
                 = Raised (HTTPException 500 "Run ended with status: expired"))
    by (vm_compute; reflexivity).
  split; [unfold accepted; auto|].
  split; [reflexivity|]. split; [reflexivity|]. split; [exact Hout|].
  intros (detail & Hdetail & _ & He).
  rewrite Hout in Hdetail. injection Hdetail as <-.
  specialize (He rate_limited eq_refl). vm_compute in He. discriminate.
Qed.

(** ** The thread identifier *)

Lemma chat_without_thread g chat_request served :
  str_empty (thread_id chat_request) = true ->
  chat g chat_request served
  = (Raised (HTTPException 400 "Missing thread_id"), served, []).
Proof. intros H. unfold chat. rewrite H. reflexivity. Qed.

(** C5, as the code has it.  A [POST /chat] whose [thread_id] is absent or
    empty is answered before any event of the handler, so before any remote
    call.  When the [thread_id] is absent the body does not validate against
    [ChatRequest] and is answered with status 422 without entering [chat],
    and so is a body with an empty [thread_id] and no [message].  When the
    [thread_id] is empty and the [message] is there, the body validates and
    [chat] raises the error of status 400. *)
Theorem thread_id_required g body :
  body_thread_id body = None \/ body_thread_id body = Some "" ->
  snd (post_chat g body) = []
  /\ (body_thread_id body = None \/ body_message body = None ->
      http_status (fst (post_chat g body)) = 422)
  /\ (body_thread_id body = Some "" -> body_message body <> None ->
      fst (post_chat g body) = HTTPError 400 "Missing thread_id").
Proof.
  intros H. unfold post_chat, validate_ChatRequest, serve.
  destruct body as [[t|] [m|]]; cbn [body_thread_id body_message] in *;
    destruct H as [H|H]; try discriminate.
  - injection H as ->.
    rewrite chat_without_thread by reflexivity.
    split; [reflexivity|]. split; [|reflexivity].
    intros [E | E]; discriminate.
  - injection H as ->.
    split; [reflexivity|]. split; [reflexivity|]. intros _ Hm. now elim Hm.
  - split; [reflexivity|]. split; [reflexivity | discriminate].
  - split; [reflexivity|]. split; [reflexivity | discriminate].
Qed.

Lemma thread_id_required_witness :
  let g := configured_with (scripted (completes_on 1) [text_message "hi"]) in
  let body := {| body_thread_id := Some ""; body_message := Some "hello" |} in
  snd (post_chat g body) = []
  /\ fst (post_chat g body) = HTTPError 400 "Missing thread_id".
Proof.
  intros g body.
  destruct (thread_id_required g body) as (Hlog & _ & H400).
  - right. reflexivity.
  - split; [exact Hlog|]. apply H400; [reflexivity | discriminate].
Defined.

(** A body without [thread_id] is not answered with status 400. *)
Lemma absent_thread_id_is_unprocessable :
  let g := configured_with (scripted (completes_on 1) [text_message "hi"]) in
  let body := {| body_thread_id := None; body_message := Some "hello" |} in
  post_chat g body = (Unprocessable ["thread_id"], [])
  /\ http_status (fst (post_chat g body)) <> 400.
Proof. intros g body. split; [reflexivity | discriminate]. Qed.

(** ** After completion *)

Section Completed.

Variables (g : Globals) (c : Client) (chat_request : ChatRequest) (run : Run).
Variables (n : nat) (rs : RunStatus).

Hypothesis request_accepted : accepted g c chat_request run.
Hypothesis still_pending : pending_for c (thread_id chat_request) run n.
Hypothesis within_budget : n < MAX_POLL_ATTEMPTS.
Hypothesis reported : observed c (thread_id chat_request) run n = Ok rs.
Hypothesis completed : status rs = "completed".

(** The loop is left by [break] at iteration [n]. *)
Lemma poll_breaks :
  exists log,
    poll g (thread_id chat_request) run 0 0 = (Returned n, S n, log)
    /\ count is_retrieval log = S n
    /\ none is_listing log = true.
Proof.
  destruct request_accepted as (Hc & _).
  pose proof (poll_reaches g c _ run Hc n still_pending within_budget) as Hpoll.
  rewrite (iteration_completed g c _ run Hc _ _ _ rs reported completed) in Hpoll.
  unfold after in Hpoll. eexists. split; [exact Hpoll|]. split.
  - rewrite count_app, polled_retrievals. unfold count. simpl. lia.
  - rewrite none_app, polled_no_listing. reflexivity.
Qed.

End Completed.


(** C6.  When the run is reported completed within the budget and the list
    of messages retrieved afterwards is empty, [chat] raises the error of
    status 500 ["No response from assistant"]; the caller does not receive a
    successful response. *)
Theorem empty_message_list_is_error g c chat_request run n rs messages :
  accepted g c chat_request run ->
  pending_for c (thread_id chat_request) run n ->
  n < MAX_POLL_ATTEMPTS ->
  observed c (thread_id chat_request) run n = Ok rs ->
  status rs = "completed" ->
  messages_list c (thread_id chat_request) 1 = Ok messages ->
  data messages = [] ->
  outcome (chat g chat_request)
  = Raised (HTTPException 500 "No response from assistant")
  /\ fst (serve (chat g chat_request))
     = HTTPError 500 "No response from assistant".
Proof.
  intros Ha Hpending Hlt Hrs Hdone Hml Hdata.
  destruct (poll_breaks g c chat_request run n rs Ha Hpending Hlt Hrs Hdone)
    as (log & Hpoll & _).
  destruct Ha as (Hc & Ht & Hm & Hr).
  pose proof (chat_no_message g c chat_request run Hc Ht Hm Hr _ _ _ _ Hpoll Hlt
                Hml Hdata) as Hchat.
  unfold outcome, serve. rewrite Hchat. split; reflexivity.
Qed.

Lemma empty_message_list_is_error_witness :
  let c := scripted (completes_on 3) [] in
  outcome (chat (configured_with c) hello)
  = Raised (HTTPException 500 "No response from assistant")
  /\ fst (serve (chat (configured_with c) hello))
     = HTTPError 500 "No response from assistant".
Proof.
  intros c.
  apply (empty_message_list_is_error (configured_with c) c hello run_1 2
           (reporting "completed") {| data := [] |}).
  - unfold accepted. auto.
  - intros k Hk. exists (reporting "queued"). split; [|reflexivity].
    destruct k as [|[|k]]; [reflexivity | reflexivity | lia].
  - unfold MAX_POLL_ATTEMPTS. lia.
  - reflexivity.
  - reflexivity.
  - reflexivity.
  - reflexivity.
Defined.




(** ** Function calling *)

(** C8.  When a status retrieval within the budget reports
    ['requires_action'], [chat] raises the error of status 500 for function
    calling that is not implemented.  With [n] pending retrievals before it,
    the request makes [n + 1] status retrievals and [n] sleeps in all, so
    neither follows that retrieval, and the messages are not listed. *)
Theorem requires_action_is_rejected g c chat_request run n rs :
  accepted g c chat_request run ->
  pending_for c (thread_id chat_request) run n ->
  n < MAX_POLL_ATTEMPTS ->
  observed c (thread_id chat_request) run n = Ok rs ->
  status rs = "requires_action" ->
  outcome (chat g chat_request)
  = Raised (HTTPException 500
              "Run requires action - function calling not implemented")
  /\ count is_retrieval (events (chat g chat_request)) = n + 1
  /\ count is_sleep (events (chat g chat_request)) = n
  /\ count is_listing (events (chat g chat_request)) = 0.
Proof.
  intros (Hc & Ht & Hm & Hr) Hpending Hlt Hrs Hreq.
  pose proof (poll_reaches g c _ run Hc n Hpending Hlt) as Hpoll.
  rewrite (iteration_requires_action g c _ run Hc _ _ _ rs Hrs Hreq) in Hpoll.
  unfold after in Hpoll.
  pose proof (chat_loop_raised_http g c chat_request run Hc Ht Hm Hr _ _ _ _ Hpoll)
    as Hchat.
  unfold outcome, events. rewrite Hchat. cbn [fst snd].
  split; [reflexivity|].
  rewrite !count_app, polled_retrievals, polled_sleeps.
  rewrite (none_count is_listing (polled _ _ _ _ _ _)) by apply polled_no_listing.
  split; [reflexivity|]. split; [unfold count; simpl; lia | reflexivity].
Qed.

Lemma requires_action_is_rejected_witness :
  let c := scripted (settles_on 2 "requires_action" None) [] in
  outcome (chat (configured_with c) hello)
  = Raised (HTTPException 500
              "Run requires action - function calling not implemented")
  /\ count is_retrieval (events (chat (configured_with c) hello)) = 2
  /\ count is_sleep (events (chat (configured_with c) hello)) = 1
  /\ count is_listing (events (chat (configured_with c) hello)) = 0.
Proof.
  intros c.
  apply (requires_action_is_rejected (configured_with c) c hello run_1 1
           (reporting "requires_action")).
  - unfold accepted. auto.
  - intros k Hk. exists (reporting "queued"). split; [|reflexivity].
    destruct k as [|k]; [reflexivity | lia].
  - unfold MAX_POLL_ATTEMPTS. lia.
  - reflexivity.
  - reflexivity.
Defined.

(** ** Statuses the loop does not know *)

(** C9.  Let [s] be any status outside the six terminal ones.  An iteration
    that retrieves [s] goes on through the sleep to the rest of the loop; and
    when all 60 retrievals report [s], the request makes 60 retrievals and 60
    sleeps and ends in the timeout error of status 504. *)
Theorem unrecognised_status_times_out g c chat_request run s :
  is_terminal s = false ->
  accepted g c chat_request run ->
  (forall k, k < MAX_POLL_ATTEMPTS ->
     exists rs, observed c (thread_id chat_request) run k = Ok rs
                /\ status rs = s) ->
  (forall attempts served next rs,
     observed c (thread_id chat_request) run served = Ok rs ->
     status rs = s ->
     exists line,
       poll_iteration g (thread_id chat_request) run attempts next served
       = after [RunsRetrieve (thread_id chat_request) (id run) (Ok rs);
                Print line; Sleep POLL_INTERVAL]
           (next (S served)))
  /\ outcome (chat g chat_request)
     = Raised (HTTPException 504
                 "Request timeout: Assistant did not respond in time")
  /\ count is_retrieval (events (chat g chat_request)) = MAX_POLL_ATTEMPTS
  /\ count is_sleep (events (chat g chat_request)) = MAX_POLL_ATTEMPTS.
Proof.
  intros Hs (Hc & Ht & Hm & Hr) Hstuck. split.
  { intros attempts served next rs Hrs Hstatus. eexists.
    apply (iteration_pending g c _ run Hc _ _ _ rs Hrs). now rewrite Hstatus. }
  assert (Hpending : pending_for c (thread_id chat_request) run MAX_POLL_ATTEMPTS).
  { intros k Hk. destruct (Hstuck k Hk) as (rs & Hrs & Hstatus).
    exists rs. split; [exact Hrs | now rewrite Hstatus]. }
  pose proof (poll_runs_out g c _ run Hc Hpending) as Hpoll.
  pose proof (chat_loop_exhausted g c chat_request run Hc Ht Hm Hr _ _ _ Hpoll
                (le_n _)) as Hchat.
  unfold outcome, events. rewrite Hchat. cbn [fst snd].
  split; [reflexivity|].
  rewrite !count_app, polled_retrievals, polled_sleeps. split; reflexivity.
Qed.

Lemma unrecognised_status_times_out_witness :
  let c := scripted (fun _ => reporting "incomplete") [] in
  outcome (chat (configured_with c) hello)
  = Raised (HTTPException 504
              "Request timeout: Assistant did not respond in time")
  /\ count is_retrieval (events (chat (configured_with c) hello)) = 60
  /\ count is_sleep (events (chat (configured_with c) hello)) = 60.
Proof.
  intros c.
  apply (unrecognised_status_times_out (configured_with c) c hello run_1
           "incomplete").
  - reflexivity.
  - unfold accepted. auto.
  - intros k _. exists (reporting "incomplete"). split; reflexivity.
Defined.

(** ** Health *)

(** C10.  [/health] answers for all values of the globals, with status 200
    and without any event.  The status it reports is ['healthy'] in every
    case; [openai_configured] is true exactly when [client] is not [None],
    and [assistant_configured] is true exactly when [assistant_id] is not
    [None]. *)
Theorem health_is_always_healthy g :
  exists h,
    get_health g = (Success h, [])
    /\ http_status (fst (get_health g)) = 200
    /\ health_status h = "healthy"
    /\ (openai_configured h = true <-> client g <> None)
    /\ (assistant_configured h = true <-> assistant_id g <> None).
Proof.
  eexists. split; [reflexivity|]. split; [reflexivity|].
  split; [reflexivity|]. cbn [openai_configured assistant_configured].
  split.
  - destruct (client g); cbn [truthy]; split; congruence.
  - destruct (assistant_id g); cbn [truthy]; split; congruence.
Qed.


(** * Further properties of the handlers *)

(** ** Case analysis of the loop *)

(** Every run of the loop is built from its seven ways through an
    iteration: a property that holds in each of them holds of [poll].  The
    printed lines are left open. *)
Lemma poll_cases g thread_id run
  (P : nat -> nat -> result nat * nat * list Event -> Prop) :
  (forall attempts served,
     MAX_POLL_ATTEMPTS <= attempts ->
     P attempts served (Returned attempts, served, [])) ->
  (forall attempts served,
     attempts < MAX_POLL_ATTEMPTS -> client g = None ->
     P attempts served
       (Raised (Exception "'NoneType' object has no attribute 'beta'"),
        served, [])) ->
  (forall attempts served c msg,
     attempts < MAX_POLL_ATTEMPTS -> client g = Some c ->
     runs_retrieve c served thread_id (id run) = Fail msg ->
     P attempts served
       (Raised (Exception msg), S served,
        [RunsRetrieve thread_id (id run) (Fail msg)])) ->
  (forall attempts served c rs line,
     attempts < MAX_POLL_ATTEMPTS -> client g = Some c ->
     runs_retrieve c served thread_id (id run) = Ok rs ->
     status rs = "completed" ->
     P attempts served
       (Returned attempts, S served,
        [RunsRetrieve thread_id (id run) (Ok rs); Print line])) ->
  (forall attempts served c rs line detail,
     attempts < MAX_POLL_ATTEMPTS -> client g = Some c ->
     runs_retrieve c served thread_id (id run) = Ok rs ->
     str_in (status rs) failure_statuses = true ->
     P attempts served
       (Raised (HTTPException 500 detail), S served,
        [RunsRetrieve thread_id (id run) (Ok rs); Print line; Print detail])) ->
  (forall attempts served c rs line,
     attempts < MAX_POLL_ATTEMPTS -> client g = Some c ->
     runs_retrieve c served thread_id (id run) = Ok rs ->
     status rs = "requires_action" ->
     P attempts served
       (Raised (HTTPException 500
                  "Run requires action - function calling not implemented"),
        S served,
        [RunsRetrieve thread_id (id run) (Ok rs); Print line])) ->
  (forall attempts served c rs line x,
     attempts < MAX_POLL_ATTEMPTS -> client g = Some c ->
     runs_retrieve c served thread_id (id run) = Ok rs ->
     is_terminal (status rs) = false ->
     P (attempts + 1) (S served) x ->
     P attempts served
       (after [RunsRetrieve thread_id (id run) (Ok rs); Print line;
               Sleep POLL_INTERVAL] x)) ->
  forall attempts served,
    P attempts served (poll g thread_id run attempts served).
Proof.
  intros Hexit Hnone Hraise Hdone Hfail Hreq Hpend attempts.
  remember (MAX_POLL_ATTEMPTS - attempts) as n eqn:Hn.
  revert attempts Hn.
  induction n as [|n IH]; intros attempts Hn served.
  - rewrite poll_exit by lia. apply Hexit. lia.
  - assert (Hlt : attempts < MAX_POLL_ATTEMPTS) by lia.
    rewrite poll_iterate by exact Hlt.
    destruct (client g) as [c|] eqn:Hc;
      [| rewrite iteration_unconfigured by exact Hc; now apply Hnone].
    destruct (runs_retrieve c served thread_id (id run)) as [rs|msg] eqn:Ha;
      [| rewrite (iteration_raises g c _ run Hc _ _ _ msg Ha);
         now apply (Hraise _ _ c)].
    destruct (is_terminal (status rs)) eqn:Hterm.
    + rewrite is_terminal_split in Hterm.
      apply orb_true_iff in Hterm as [Hterm | Hr].
      apply orb_true_iff in Hterm as [Hd | Hf].
      * apply String.eqb_eq in Hd.
        rewrite (iteration_completed g c _ run Hc _ _ _ rs Ha Hd).
        now apply (Hdone _ _ c).
      * rewrite (iteration_failure g c _ run Hc _ _ _ rs Ha Hf).
        now apply (Hfail _ _ c).
      * apply String.eqb_eq in Hr.
        rewrite (iteration_requires_action g c _ run Hc _ _ _ rs Ha Hr).
        now apply (Hreq _ _ c).
    + rewrite (iteration_pending g c _ run Hc _ _ _ rs Ha Hterm).
      apply (Hpend _ _ c); auto. apply IH. lia.
Qed.

(** The exceptions of the loop: an [HTTPException] of the loop has status
    500. *)
Lemma poll_raises_500 g thread_id run attempts served status_code :
  raised_status (fst (fst (poll g thread_id run attempts served)))
  = Some status_code ->
  status_code = 500.
Proof.
  revert attempts served.
  apply (poll_cases g thread_id run
           (fun _ _ x => raised_status (fst (fst x)) = Some status_code ->
                         status_code = 500));
    intros; try discriminate;
    try (cbn in *; congruence).
  destruct x as [[r s] l]. auto.
Qed.

(** The events of the loop are retrievals for this thread and this run,
    sleeps of [POLL_INTERVAL] and printed lines. *)
Lemma poll_addressed g thread_id run attempts served :
  forallb (well_addressed thread_id (id run))
    (snd (poll g thread_id run attempts served)) = true
  /\ none is_listing (snd (poll g thread_id run attempts served)) = true.
Proof.
  revert attempts served.
  apply (poll_cases g thread_id run
           (fun _ _ x =>
              forallb (well_addressed thread_id (id run)) (snd x) = true
              /\ none is_listing (snd x) = true));
    intros; try destruct x as [[r s] l];
    cbn [snd after app forallb well_addressed none is_listing negb andb];
    rewrite ?String.eqb_refl; cbn [andb]; auto.
Qed.

(** The counters of the loop.  Entered within the budget, the loop makes at
    most as many retrievals as the budget has left, and never more sleeps
    than retrievals.  When it returns [a], it has slept [a - attempts]
    times; it has made one retrieval more if it was left by [break], and
    that retrieval reported ['completed']. *)
Lemma poll_accounts g thread_id run attempts served :
  let x := poll g thread_id run attempts served in
  (attempts <= MAX_POLL_ATTEMPTS ->
   count is_retrieval (snd x) + attempts <= MAX_POLL_ATTEMPTS)
  /\ count is_sleep (snd x) <= count is_retrieval (snd x)
  /\ forall a, fst (fst x) = Returned a ->
       attempts <= a
       /\ count is_sleep (snd x) = a - attempts
       /\ count is_retrieval (snd x)
          = a - attempts + (if (a <? MAX_POLL_ATTEMPTS)%nat then 1 else 0)
       /\ (a < MAX_POLL_ATTEMPTS -> existsb reports_completed (snd x) = true).
Proof.
  cbv zeta. revert attempts served.
  apply (poll_cases g thread_id run
           (fun attempts _ x =>
              (attempts <= MAX_POLL_ATTEMPTS ->
               count is_retrieval (snd x) + attempts <= MAX_POLL_ATTEMPTS)
              /\ count is_sleep (snd x) <= count is_retrieval (snd x)
              /\ forall a, fst (fst x) = Returned a ->
                   attempts <= a
                   /\ count is_sleep (snd x) = a - attempts
                   /\ count is_retrieval (snd x)
                      = a - attempts
                        + (if (a <? MAX_POLL_ATTEMPTS)%nat then 1 else 0)
                   /\ (a < MAX_POLL_ATTEMPTS ->
                       existsb reports_completed (snd x) = true))).
  - intros attempts served Hle. cbn [fst snd]. unfold count. simpl.
    split; [lia|]. split; [lia|]. intros a [= <-].
    rewrite (proj2 (Nat.ltb_ge _ _) Hle).
    split; [lia|]. split; [lia|]. split; lia.
  - intros. cbn [fst snd]. unfold count. simpl.
    split; [lia|]. split; [lia|]. discriminate.
  - intros. cbn [fst snd]. unfold count. simpl.
    split; [lia|]. split; [lia|]. discriminate.
  - intros attempts served c rs line Hlt _ _ Hdone. cbn [fst snd].
    unfold count. cbn [filter is_retrieval is_sleep length].
    split; [lia|]. split; [lia|]. intros a [= <-].
    apply Nat.ltb_lt in Hlt. rewrite Hlt.
    split; [lia|]. split; [lia|]. split; [lia|].
    intros _. cbn [existsb reports_completed]. now rewrite Hdone.
  - intros. cbn [fst snd]. unfold count. cbn [filter is_retrieval is_sleep length].
    split; [lia|]. split; [lia|]. discriminate.
  - intros. cbn [fst snd]. unfold count. cbn [filter is_retrieval is_sleep length].
    split; [lia|]. split; [lia|]. discriminate.
  - intros attempts served c rs line [[r s] l] Hlt _ _ _ (Hbound & Hsleeps & Hret).
    cbn [fst snd after app] in *.
    unfold count in *. cbn [filter is_retrieval is_sleep length] in *.
    split; [lia|]. split; [lia|]. intros a Ha.
    destruct (Hret a Ha) as (H1 & H2 & H3 & H4).
    split; [lia|]. split; [lia|]. split; [lia|].
    intros Ha'. cbn [existsb reports_completed].
    destruct (status rs =? "completed"); [reflexivity | auto].
Qed.

(** ** The other ways through [chat] *)

Section Failures.

Variables (g : Globals) (chat_request : ChatRequest).

Let t := thread_id chat_request.

Hypothesis thread_given : str_empty t = false.

Let greeting : Event :=
  Print ("Processing message for thread " ++ t ++ ": " ++ message chat_request).

Let reported (msg : string) : result ChatResponse :=
  Raised (HTTPException 500 ("Internal server error: " ++ msg)).

Let complaint (msg : string) : Event :=
  Print ("Error in chat endpoint: " ++ msg).

(** [chat] before the client exists. *)
Lemma chat_unconfigured :
  client g = None ->
  chat g chat_request 0 =
  (reported "'NoneType' object has no attribute 'beta'", 0,
   [greeting; complaint "'NoneType' object has no attribute 'beta'"]).
Proof.
  intros Hc. unfold chat. fold t. rewrite thread_given.
  erewrite bind_returned by reflexivity.
  erewrite try_raised.
  2:{ erewrite bind_raised; [reflexivity|].
      unfold call_messages_create, client_beta, bind. rewrite Hc. reflexivity. }
  cbv beta iota. erewrite bind_returned by reflexivity. reflexivity.
Qed.

(** The message is refused by the service. *)
Lemma chat_message_refused c msg :
  client g = Some c ->
  messages_create c t "user" (message chat_request) = Fail msg ->
  chat g chat_request 0 =
  (reported msg, 0,
   [greeting; MessagesCreate t "user" (message chat_request); complaint msg]).
Proof.
  intros Hc Hm. unfold chat. fold t. rewrite thread_given.
  erewrite bind_returned by reflexivity.
  erewrite try_raised.
  2:{ erewrite bind_raised; [reflexivity|].
      unfold call_messages_create, client_beta, bind. rewrite Hc.
      unfold ret, emit. rewrite Hm. reflexivity. }
  cbv beta iota. erewrite bind_returned by reflexivity. reflexivity.
Qed.

(** The run is refused by the service. *)
Lemma chat_run_refused c msg :
  client g = Some c ->
  messages_create c t "user" (message chat_request) = Ok tt ->
  runs_create c t (assistant_id g) = Fail msg ->
  chat g chat_request 0 =
  (reported msg, 0,
   [greeting; MessagesCreate t "user" (message chat_request);
    RunsCreate t (assistant_id g); complaint msg]).
Proof.
  intros Hc Hm Hr. unfold chat. fold t. rewrite thread_given.
  erewrite bind_returned by reflexivity.
  erewrite try_raised.
  2:{ erewrite bind_returned
        by apply (message_create_returns g c chat_request Hc Hm).
      erewrite bind_raised; [reflexivity|].
      unfold call_runs_create, client_beta, bind. rewrite Hc.
      unfold ret, emit. rewrite Hr. reflexivity. }
  cbv beta iota. erewrite bind_returned by reflexivity. reflexivity.
Qed.

Variables (c : Client) (run : Run) (attempts served : nat) (log : list Event).

Hypothesis configured : client g = Some c.
Hypothesis message_added :
  messages_create c t "user" (message chat_request) = Ok tt.
Hypothesis run_created : runs_create c t (assistant_id g) = Ok run.
Hypothesis loop_broken : poll g t run 0 0 = (Returned attempts, served, log).
Hypothesis within_budget : attempts < MAX_POLL_ATTEMPTS.

Let opening : list Event :=
  [greeting; MessagesCreate t "user" (message chat_request);
   RunsCreate t (assistant_id g)].

(** What the part of [chat] after the loop makes of the listing, when it
    raises an exception that is not an [HTTPException]. *)
Lemma chat_reply_raised messages msg :
  call_messages_list g t 1 served
  = (Returned messages, served, [MessagesList t 1]) ->
  list_empty (data messages) = false ->
  first_text_value messages served = (Raised (Exception msg), served, []) ->
  chat g chat_request 0 =
  (reported msg, served,
   (opening ++ log ++ [MessagesList t 1; complaint msg])%list).
Proof.
  intros Hlist Hdata Htext. pose proof within_budget as Hlt.
  apply Nat.leb_gt in Hlt.
  unfold chat. fold t. rewrite thread_given.
  erewrite bind_returned by reflexivity.
  erewrite try_raised.
  2:{ erewrite bind_returned
        by apply (message_create_returns g c chat_request configured message_added).
      erewrite bind_returned
        by apply (run_create_returns g c chat_request run configured run_created).
      erewrite bind_returned by exact loop_broken.
      rewrite Hlt.
      erewrite bind_returned by exact Hlist.
      rewrite Hdata.
      erewrite bind_raised by exact Htext.
      reflexivity. }
  cbv beta iota. erewrite bind_returned by reflexivity.
  subst opening. settle.
Qed.

(** The listing raises. *)
Lemma chat_list_raised msg :
  messages_list c t 1 = Fail msg ->
  chat g chat_request 0 =
  (reported msg, served,
   (opening ++ log ++ [MessagesList t 1; complaint msg])%list).
Proof.
  intros Hml. pose proof within_budget as Hlt. apply Nat.leb_gt in Hlt.
  pose proof (messages_list_answers g c chat_request configured 1 served) as Hlist.
  fold t in Hlist. rewrite Hml in Hlist.
  unfold chat. fold t. rewrite thread_given.
  erewrite bind_returned by reflexivity.
  erewrite try_raised.
  2:{ erewrite bind_returned
        by apply (message_create_returns g c chat_request configured message_added).
      erewrite bind_returned
        by apply (run_create_returns g c chat_request run configured run_created).
      erewrite bind_returned by exact loop_broken.
      rewrite Hlt.
      erewrite bind_raised by exact Hlist.
      reflexivity. }
  cbv beta iota. erewrite bind_returned by reflexivity.
  subst opening. settle.
Qed.

(** The first message has no content block. *)
Lemma chat_no_content messages m ms :
  messages_list c t 1 = Ok messages ->
  data messages = m :: ms ->
  content m = [] ->
  chat g chat_request 0 =
  (reported "list index out of range", served,
   (opening ++ log
    ++ [MessagesList t 1; complaint "list index out of range"])%list).
Proof.
  intros Hml Hdata Hcontent.
  pose proof (messages_list_answers g c chat_request configured 1 served) as Hlist.
  fold t in Hlist. rewrite Hml in Hlist.
  apply (chat_reply_raised messages); [exact Hlist | now rewrite Hdata |].
  unfold first_text_value. now rewrite Hdata, Hcontent.
Qed.

(** The first content block of the first message is not a text block. *)
Lemma chat_no_text messages m ms type_name blocks :
  messages_list c t 1 = Ok messages ->
  data messages = m :: ms ->
  content m = OtherContentBlock type_name :: blocks ->
  chat g chat_request 0 =
  (reported ("'" ++ type_name ++ "' object has no attribute 'text'"), served,
   (opening ++ log
    ++ [MessagesList t 1;
        complaint ("'" ++ type_name ++ "' object has no attribute 'text'")])%list).
Proof.
  intros Hml Hdata Hcontent.
  pose proof (messages_list_answers g c chat_request configured 1 served) as Hlist.
  fold t in Hlist. rewrite Hml in Hlist.
  apply (chat_reply_raised messages); [exact Hlist | now rewrite Hdata |].
  unfold first_text_value. now rewrite Hdata, Hcontent.
Qed.

End Failures.

(** ** Case analysis of [chat] *)

(** Every execution of [chat] goes one of seven ways: the thread identifier
    is empty; a call before the loop raises; the loop raises an
    [HTTPException]; the loop raises another exception; the budget is used
    up; the part after the loop raises; the text is returned.  A property
    that holds in each of them holds of [chat].  The printed lines are left
    open. *)
Lemma chat_cases g chat_request
  (P : result ChatResponse * nat * list Event -> Prop) :
  (str_empty (thread_id chat_request) = true ->
   P (Raised (HTTPException 400 "Missing thread_id"), 0, [])) ->
  (forall detail line line' calls,
     str_empty (thread_id chat_request) = false ->
     calls = []
     \/ calls = [MessagesCreate (thread_id chat_request) "user"
                   (message chat_request)]
     \/ calls = [MessagesCreate (thread_id chat_request) "user"
                   (message chat_request);
                 RunsCreate (thread_id chat_request) (assistant_id g)] ->
     P (Raised (HTTPException 500 detail), 0,
        (Print line :: calls ++ [Print line'])%list)) ->
  (forall c run status_code detail served log line,
     accepted g c chat_request run ->
     poll g (thread_id chat_request) run 0 0
     = (Raised (HTTPException status_code detail), served, log) ->
     P (Raised (HTTPException status_code detail), served,
        (Print line
         :: MessagesCreate (thread_id chat_request) "user" (message chat_request)
         :: RunsCreate (thread_id chat_request) (assistant_id g)
         :: log)%list)) ->
  (forall c run msg served log line line',
     accepted g c chat_request run ->
     poll g (thread_id chat_request) run 0 0
     = (Raised (Exception msg), served, log) ->
     P (Raised (HTTPException 500 ("Internal server error: " ++ msg)), served,
        (Print line
         :: MessagesCreate (thread_id chat_request) "user" (message chat_request)
         :: RunsCreate (thread_id chat_request) (assistant_id g)
         :: log ++ [Print line'])%list)) ->
  (forall c run attempts served log line,
     accepted g c chat_request run ->
     poll g (thread_id chat_request) run 0 0 = (Returned attempts, served, log) ->
     MAX_POLL_ATTEMPTS <= attempts ->
     P (Raised (HTTPException 504
                  "Request timeout: Assistant did not respond in time"),
        served,
        (Print line
         :: MessagesCreate (thread_id chat_request) "user" (message chat_request)
         :: RunsCreate (thread_id chat_request) (assistant_id g)
         :: log)%list)) ->
  (forall c run attempts served log detail line closing,
     accepted g c chat_request run ->
     poll g (thread_id chat_request) run 0 0 = (Returned attempts, served, log) ->
     attempts < MAX_POLL_ATTEMPTS ->
     forallb is_print closing = true ->
     P (Raised (HTTPException 500 detail), served,
        (Print line
         :: MessagesCreate (thread_id chat_request) "user" (message chat_request)
         :: RunsCreate (thread_id chat_request) (assistant_id g)
         :: log ++ MessagesList (thread_id chat_request) 1 :: closing)%list)) ->
  (forall c run attempts served log messages m ms text blocks line line',
     accepted g c chat_request run ->
     poll g (thread_id chat_request) run 0 0 = (Returned attempts, served, log) ->
     attempts < MAX_POLL_ATTEMPTS ->
     messages_list c (thread_id chat_request) 1 = Ok messages ->
     data messages = m :: ms ->
     content m = TextContentBlock text :: blocks ->
     P (Returned {| response := value text |}, served,
        (Print line
         :: MessagesCreate (thread_id chat_request) "user" (message chat_request)
         :: RunsCreate (thread_id chat_request) (assistant_id g)
         :: log ++ [MessagesList (thread_id chat_request) 1; Print line'])%list)) ->
  P (chat g chat_request 0).
Proof.
  intros Hmissing Hearly Hhttp Hother Htimeout Hreply Htext.
  destruct (str_empty (thread_id chat_request)) eqn:Ht.
  { rewrite chat_without_thread by exact Ht. now apply Hmissing. }
  destruct (client g) as [c|] eqn:Hc.
  2:{ rewrite (chat_unconfigured g chat_request Ht Hc).
      apply (Hearly _ _ _ []); auto. }
  destruct (messages_create c (thread_id chat_request) "user"
              (message chat_request)) as [[]|msg] eqn:Hm.
  2:{ rewrite (chat_message_refused g chat_request Ht c msg Hc Hm).
      apply (Hearly _ _ _ [_]); auto. }
  destruct (runs_create c (thread_id chat_request) (assistant_id g))
    as [run|msg] eqn:Hr.
  2:{ rewrite (chat_run_refused g chat_request Ht c msg Hc Hm Hr).
      apply (Hearly _ _ _ [_; _]); auto. }
  assert (Ha : accepted g c chat_request run) by (unfold accepted; auto).
  destruct (poll g (thread_id chat_request) run 0 0) as [[r served] log] eqn:Hpoll.
  destruct r as [attempts|[status_code detail|msg]].
  - destruct (le_lt_dec MAX_POLL_ATTEMPTS attempts) as [Hle|Hlt].
    { rewrite (chat_loop_exhausted g c chat_request run Hc Ht Hm Hr _ _ _ Hpoll Hle).
      now apply (Htimeout c run attempts). }
    destruct (messages_list c (thread_id chat_request) 1)
      as [[[|m ms]]|msg] eqn:Hml.
    + rewrite (chat_no_message g c chat_request run Hc Ht Hm Hr _ _ _ _ Hpoll Hlt
                 Hml eq_refl).
      now apply (Hreply c run attempts).
    + destruct (content m) as [|[text|type_name] blocks] eqn:Hcontent.
      * rewrite (chat_no_content g chat_request Ht c run _ _ _ Hc Hm Hr Hpoll Hlt
                   {| data := m :: ms |} m ms Hml eq_refl Hcontent).
        now apply (Hreply c run attempts).
      * rewrite (chat_first_text g c chat_request run Hc Ht Hm Hr attempts served
                   log {| data := m :: ms |} m ms text blocks
                   Hpoll Hlt Hml eq_refl Hcontent).
        now apply (Htext c run attempts _ _ {| data := m :: ms |} m ms text blocks).
      * rewrite (chat_no_text g chat_request Ht c run _ _ _ Hc Hm Hr Hpoll Hlt
                   {| data := m :: ms |} m ms type_name blocks Hml eq_refl
                   Hcontent).
        now apply (Hreply c run attempts).
    + rewrite (chat_list_raised g chat_request Ht c run _ _ _ Hc Hm Hr Hpoll Hlt
                 msg Hml).
      now apply (Hreply c run attempts).
  - rewrite (chat_loop_raised_http g c chat_request run Hc Ht Hm Hr _ _ _ _ Hpoll).
    now apply (Hhttp c run).
  - rewrite (chat_loop_raised_other g c chat_request run Hc Ht Hm Hr _ _ _ Hpoll).
    now apply (Hother c run).
Qed.

Lemma count_cons p ev l :
  count p (ev :: l) = (if p ev then 1 else 0) + count p l.
Proof. unfold count. simpl. now destruct (p ev). Qed.

(** The only remote calls of the loop are its retrievals. *)
Lemma poll_calls g thread_id run attempts served :
  count is_remote_call (snd (poll g thread_id run attempts served))
  = count is_retrieval (snd (poll g thread_id run attempts served)).
Proof.
  revert attempts served.
  apply (poll_cases g thread_id run
           (fun _ _ x => count is_remote_call (snd x) = count is_retrieval (snd x)));
    intros; try destruct x as [[r s] l];
    cbn [snd after app] in *; rewrite ?count_cons; cbn; auto.
Qed.

(** ** What [chat] answers *)


(** X2.  Whatever the service answers, one request makes at most
    [MAX_POLL_ATTEMPTS] status retrievals, never more sleeps than
    retrievals, at most one listing of the messages, and at most three
    remote calls besides the retrievals. *)
Theorem chat_is_bounded g chat_request :
  count is_retrieval (events (chat g chat_request)) <= MAX_POLL_ATTEMPTS
  /\ count is_sleep (events (chat g chat_request))
     <= count is_retrieval (events (chat g chat_request))
  /\ count is_listing (events (chat g chat_request)) <= 1
  /\ count is_remote_call (events (chat g chat_request))
     <= count is_retrieval (events (chat g chat_request)) + 3.
Proof.
  unfold events.
  apply (chat_cases g chat_request
           (fun x =>
              count is_retrieval (snd x) <= MAX_POLL_ATTEMPTS
              /\ count is_sleep (snd x) <= count is_retrieval (snd x)
              /\ count is_listing (snd x) <= 1
              /\ count is_remote_call (snd x) <= count is_retrieval (snd x) + 3)).
  1: { intros _. cbn. unfold MAX_POLL_ATTEMPTS. repeat split; lia. }
  1: { intros detail line line' calls _ [-> | [-> | ->]]; cbn;
         unfold MAX_POLL_ATTEMPTS; repeat split; lia. }
  all: intros c run.
  all: intros;
    match goal with
    | H : poll _ _ _ _ _ = _ |- _ =>
        pose proof (poll_accounts g (thread_id chat_request) run 0 0) as Hacc;
        pose proof (poll_addressed g (thread_id chat_request) run 0 0) as Haddr;
        pose proof (poll_calls g (thread_id chat_request) run 0 0) as Hcalls;
        cbv zeta in Hacc; rewrite H in Hacc, Haddr, Hcalls;
        cbn [fst snd] in Hacc, Haddr, Hcalls
    end;
    destruct Hacc as (Hbound & Hsleeps & _); destruct Haddr as (_ & Hlisting);
    apply none_count in Hlisting;
    specialize (Hbound (Nat.le_0_l _));
    cbn [snd]; rewrite ?count_cons, ?count_app, ?count_cons;
    cbn [is_retrieval is_sleep is_listing is_remote_call];
    try rewrite (printing_is_quiet is_retrieval closing) by (auto; now intros []);
    try rewrite (printing_is_quiet is_sleep closing) by (auto; now intros []);
    try rewrite (printing_is_quiet is_listing closing) by (auto; now intros []);
    try rewrite (printing_is_quiet is_remote_call closing)
      by (auto; now intros []);
    change (count is_retrieval []) with 0; change (count is_sleep []) with 0;
    change (count is_listing []) with 0; change (count is_remote_call []) with 0;
    repeat split; lia.
Qed.

Lemma printing_is_addressed t r closing :
  forallb is_print closing = true -> forallb (well_addressed t r) closing = true.
Proof.
  induction closing as [|ev l IH]; simpl; [reflexivity|].
  rewrite !andb_true_iff. intros [Hev Hl]. split; [|auto]. now destruct ev.
Qed.

(** X3.  In a request that gets as far as the loop, every status retrieval
    is for the thread of the request and for the run that was created, every
    listing is for that thread with [limit=1], and every sleep lasts
    [POLL_INTERVAL]. *)
Theorem chat_is_well_addressed g c chat_request run :
  accepted g c chat_request run ->
  forallb (well_addressed (thread_id chat_request) (id run))
    (events (chat g chat_request)) = true.
Proof.
  intros Ha. pose proof Ha as (Hc & Ht & Hm & Hr). unfold events.
  assert (Hsame : forall c' run', accepted g c' chat_request run' -> run' = run).
  { intros c' run' (Hc' & _ & _ & Hr').
    rewrite Hc in Hc'. injection Hc' as <-. congruence. }
  apply (chat_cases g chat_request
           (fun x => forallb (well_addressed (thread_id chat_request) (id run))
                       (snd x) = true)).
  1: congruence.
  1: { intros detail line line' calls _ [-> | [-> | ->]]; reflexivity. }
  all: intros c' run'; intros;
    match goal with
    | H : accepted _ _ _ _ |- _ => apply Hsame in H; subst run'
    end;
    match goal with
    | H : poll _ _ _ _ _ = _ |- _ =>
        pose proof (poll_addressed g (thread_id chat_request) run 0 0) as Haddr;
        rewrite H in Haddr; cbn [snd] in Haddr; destruct Haddr as [Haddr _]
    end;
    cbn [snd forallb well_addressed andb]; rewrite ?forallb_app, ?Haddr;
    cbn [forallb well_addressed andb];
    rewrite ?String.eqb_refl; cbn [Nat.eqb andb];
    try rewrite printing_is_addressed by assumption; reflexivity.
Qed.

Lemma chat_is_well_addressed_witness :
  let c := scripted (completes_on 3) [text_message "hi"] in
  forallb (well_addressed "thread_1" "run_1")
    (events (chat (configured_with c) hello)) = true.
Proof.
  intros c.
  apply (chat_is_well_addressed (configured_with c) c hello run_1).
  unfold accepted. auto.
Defined.

(** X4.  A successful response is given only after a status retrieval has
    reported ['completed'] and the messages have been listed once; the
    request has then made one retrieval more than it has slept. *)
Theorem success_only_after_completed g chat_request r :
  outcome (chat g chat_request) = Returned r ->
  existsb reports_completed (events (chat g chat_request)) = true
  /\ count is_listing (events (chat g chat_request)) = 1
  /\ count is_retrieval (events (chat g chat_request))
     = count is_sleep (events (chat g chat_request)) + 1.
Proof.
  unfold outcome, events.
  apply (chat_cases g chat_request
           (fun x =>
              fst (fst x) = Returned r ->
              existsb reports_completed (snd x) = true
              /\ count is_listing (snd x) = 1
              /\ count is_retrieval (snd x) = count is_sleep (snd x) + 1));
    intros; cbn [fst] in *; try discriminate.
  match goal with
  | H : poll _ _ _ _ _ = _ |- _ =>
      pose proof (poll_accounts g (thread_id chat_request) run 0 0) as Hacc;
      pose proof (poll_addressed g (thread_id chat_request) run 0 0) as Haddr;
      cbv zeta in Hacc; rewrite H in Hacc, Haddr; cbn [fst snd] in Hacc, Haddr
  end.
  destruct Hacc as (_ & _ & Hret). destruct Haddr as (_ & Hlisting).
  destruct (Hret attempts eq_refl) as (_ & Hsleeps & Hretr & Hdone).
  apply none_count in Hlisting.
  assert (Hlt : (attempts <? MAX_POLL_ATTEMPTS)%nat = true)
    by now apply Nat.ltb_lt.
  rewrite Hlt in Hretr.
  cbn [snd existsb reports_completed orb].
  rewrite existsb_app, Hdone by assumption.
  rewrite !count_cons, !count_app, !count_cons.
  cbn [is_listing is_retrieval is_sleep].
  change (count is_listing []) with 0. change (count is_retrieval []) with 0.
  change (count is_sleep []) with 0.
  split; [reflexivity|]. split; lia.
Qed.

Lemma success_only_after_completed_witness :
  let c := scripted (completes_on 3) [text_message "hi"] in
  let log := events (chat (configured_with c) hello) in
  existsb reports_completed log = true
  /\ count is_listing log = 1
  /\ count is_retrieval log = count is_sleep log + 1.
Proof.
  intros c log.
  apply (success_only_after_completed (configured_with c) hello
           {| response := "hi" |}).
  reflexivity.
Defined.

(** X5.  The timeout error is raised only when the budget is used up: the
    request has then made exactly [MAX_POLL_ATTEMPTS] status retrievals and
    as many sleeps, and has not listed the messages. *)
Theorem timeout_only_after_budget g chat_request detail :
  outcome (chat g chat_request) = Raised (HTTPException 504 detail) ->
  count is_retrieval (events (chat g chat_request)) = MAX_POLL_ATTEMPTS
  /\ count is_sleep (events (chat g chat_request)) = MAX_POLL_ATTEMPTS
  /\ count is_listing (events (chat g chat_request)) = 0.
Proof.
  unfold outcome, events.
  apply (chat_cases g chat_request
           (fun x =>
              fst (fst x) = Raised (HTTPException 504 detail) ->
              count is_retrieval (snd x) = MAX_POLL_ATTEMPTS
              /\ count is_sleep (snd x) = MAX_POLL_ATTEMPTS
              /\ count is_listing (snd x) = 0));
    intros; cbn [fst] in *; try discriminate.
  - exfalso.
    match goal with
    | H : poll _ _ _ _ _ = _, H' : Raised _ = Raised _ |- _ =>
        injection H' as -> _;
        pose proof (poll_raises_500 g (thread_id chat_request) run 0 0 504) as H5;
        rewrite H in H5; specialize (H5 eq_refl); discriminate
    end.
  - match goal with
    | H : poll _ _ _ _ _ = _ |- _ =>
        pose proof (poll_accounts g (thread_id chat_request) run 0 0) as Hacc;
        pose proof (poll_addressed g (thread_id chat_request) run 0 0) as Haddr;
        cbv zeta in Hacc; rewrite H in Hacc, Haddr; cbn [fst snd] in Hacc, Haddr
    end.
    destruct Hacc as (Hbound & _ & Hret). destruct Haddr as (_ & Hlisting).
    destruct (Hret attempts eq_refl) as (_ & Hsleeps & Hretr & _).
    specialize (Hbound (Nat.le_0_l _)).
    apply none_count in Hlisting.
    assert (Hge : (attempts <? MAX_POLL_ATTEMPTS)%nat = false)
      by now apply Nat.ltb_ge.
    rewrite Hge in Hretr.
    cbn [snd]. rewrite !count_cons. cbn [is_listing is_retrieval is_sleep].
    repeat split; lia.
Qed.

Lemma timeout_only_after_budget_witness :
  let c := scripted (fun _ => reporting "in_progress") [] in
  let log := events (chat (configured_with c) hello) in
  count is_retrieval log = 60 /\ count is_sleep log = 60
  /\ count is_listing log = 0.
Proof.
  intros c log.
  apply (timeout_only_after_budget (configured_with c) hello
           "Request timeout: Assistant did not respond in time").
  reflexivity.
Defined.

(** ** Failures of the service *)

(** X6.  Before the client exists, [chat] answers a request that has a
    thread identifier with the error of status 500 and makes no remote
    call. *)
Theorem chat_before_client_exists g chat_request :
  client g = None ->
  str_empty (thread_id chat_request) = false ->
  outcome (chat g chat_request)
  = Raised (HTTPException 500
              "Internal server error: 'NoneType' object has no attribute 'beta'")
  /\ count is_remote_call (events (chat g chat_request)) = 0.
Proof.
  intros Hc Ht. unfold outcome, events.
  rewrite (chat_unconfigured g chat_request Ht Hc). split; reflexivity.
Qed.

Lemma chat_before_client_exists_witness :
  outcome (chat unconfigured hello)
  = Raised (HTTPException 500
              "Internal server error: 'NoneType' object has no attribute 'beta'")
  /\ count is_remote_call (events (chat unconfigured hello)) = 0.
Proof.
  apply (chat_before_client_exists unconfigured hello); reflexivity.
Defined.

(** X7.  When the service refuses the message, [chat] reports the message of
    the service in an error of status 500; the creation of the message is
    the only remote call of the request: no run is created and nothing is
    polled. *)
Theorem message_refused_is_reported g c chat_request msg :
  client g = Some c ->
  str_empty (thread_id chat_request) = false ->
  messages_create c (thread_id chat_request) "user" (message chat_request)
  = Fail msg ->
  outcome (chat g chat_request)
  = Raised (HTTPException 500 ("Internal server error: " ++ msg))
  /\ filter is_remote_call (events (chat g chat_request))
     = [MessagesCreate (thread_id chat_request) "user" (message chat_request)].
Proof.
  intros Hc Ht Hm. unfold outcome, events.
  rewrite (chat_message_refused g chat_request Ht c msg Hc Hm).
  split; reflexivity.
Qed.

Lemma message_refused_is_reported_witness :
  let c := service (Fail "down") (Fail "no such thread") (Fail "down")
             (fun _ => Fail "down") (Fail "down") in
  outcome (chat (configured_with c) hello)
  = Raised (HTTPException 500 "Internal server error: no such thread")
  /\ filter is_remote_call (events (chat (configured_with c) hello))
     = [MessagesCreate "thread_1" "user" "hello"].
Proof.
  intros c.
  apply (message_refused_is_reported (configured_with c) c hello
           "no such thread"); reflexivity.
Defined.

(** X8.  When the service refuses the run, [chat] reports the message of the
    service in an error of status 500; the message has been added, and
    nothing is polled or listed. *)
Theorem run_refused_is_reported g c chat_request msg :
  client g = Some c ->
  str_empty (thread_id chat_request) = false ->
  messages_create c (thread_id chat_request) "user" (message chat_request)
  = Ok tt ->
  runs_create c (thread_id chat_request) (assistant_id g) = Fail msg ->
  outcome (chat g chat_request)
  = Raised (HTTPException 500 ("Internal server error: " ++ msg))
  /\ filter is_remote_call (events (chat g chat_request))
     = [MessagesCreate (thread_id chat_request) "user" (message chat_request);
        RunsCreate (thread_id chat_request) (assistant_id g)].
Proof.
  intros Hc Ht Hm Hr. unfold outcome, events.
  rewrite (chat_run_refused g chat_request Ht c msg Hc Hm Hr).
  split; reflexivity.
Qed.

Lemma run_refused_is_reported_witness :
  let c := service (Fail "down") (Ok tt) (Fail "no such assistant")
             (fun _ => Fail "down") (Fail "down") in
  outcome (chat (configured_with c) hello)
  = Raised (HTTPException 500 "Internal server error: no such assistant")
  /\ filter is_remote_call (events (chat (configured_with c) hello))
     = [MessagesCreate "thread_1" "user" "hello";
        RunsCreate "thread_1" (Some "asst_1")].
Proof.
  intros c.
  apply (run_refused_is_reported (configured_with c) c hello
           "no such assistant"); reflexivity.
Defined.

(** X9.  When a status retrieval within the budget raises, after [n]
    retrievals that reported a status that is not terminal, [chat] reports
    the message of the service in an error of status 500; the request has
    made [n + 1] retrievals and [n] sleeps, and the messages are not
    listed. *)
Theorem retrieval_failure_is_reported g c chat_request run n msg :
  accepted g c chat_request run ->
  pending_for c (thread_id chat_request) run n ->
  n < MAX_POLL_ATTEMPTS ->
  observed c (thread_id chat_request) run n = Fail msg ->
  outcome (chat g chat_request)
  = Raised (HTTPException 500 ("Internal server error: " ++ msg))
  /\ count is_retrieval (events (chat g chat_request)) = n + 1
  /\ count is_sleep (events (chat g chat_request)) = n
  /\ count is_listing (events (chat g chat_request)) = 0.
Proof.
  intros (Hc & Ht & Hm & Hr) Hpending Hlt Hfail.
  pose proof (poll_reaches g c _ run Hc n Hpending Hlt) as Hpoll.
  rewrite (iteration_raises g c _ run Hc _ _ _ msg Hfail) in Hpoll.
  unfold after in Hpoll.
  pose proof (chat_loop_raised_other g c chat_request run Hc Ht Hm Hr _ _ _ Hpoll)
    as Hchat.
  unfold outcome, events. rewrite Hchat. cbn [fst snd].
  split; [reflexivity|].
  rewrite !count_app, polled_retrievals, polled_sleeps.
  rewrite (none_count is_listing (polled _ _ _ _ _ _)) by apply polled_no_listing.
  split; [unfold count; simpl; lia|]. split; [unfold count; simpl; lia|].
  reflexivity.
Qed.

Lemma retrieval_failure_is_reported_witness :
  let c := service (Fail "down") (Ok tt) (Ok run_1)
             (fun k => if (k <? 2)%nat then Ok (reporting "in_progress")
                       else Fail "connection reset")
             (Fail "down") in
  outcome (chat (configured_with c) hello)
  = Raised (HTTPException 500 "Internal server error: connection reset")
  /\ count is_retrieval (events (chat (configured_with c) hello)) = 3
  /\ count is_sleep (events (chat (configured_with c) hello)) = 2
  /\ count is_listing (events (chat (configured_with c) hello)) = 0.
Proof.
  intros c.
  apply (retrieval_failure_is_reported (configured_with c) c hello run_1 2
           "connection reset").
  - unfold accepted. auto.
  - intros k Hk. exists (reporting "in_progress"). split; [|reflexivity].
    destruct k as [|[|k]]; [reflexivity | reflexivity | lia].
  - unfold MAX_POLL_ATTEMPTS. lia.
  - reflexivity.
Defined.

(** ** Failures after completion *)

(** X10.  When the run is reported completed within the budget and the
    listing of the messages raises, [chat] reports the message of the
    service in an error of status 500. *)
Theorem listing_failure_is_reported g c chat_request run n rs msg :
  accepted g c chat_request run ->
  pending_for c (thread_id chat_request) run n ->
  n < MAX_POLL_ATTEMPTS ->
  observed c (thread_id chat_request) run n = Ok rs ->
  status rs = "completed" ->
  messages_list c (thread_id chat_request) 1 = Fail msg ->
  outcome (chat g chat_request)
  = Raised (HTTPException 500 ("Internal server error: " ++ msg)).
Proof.
  intros Ha Hpending Hlt Hrs Hdone Hml.
  destruct (poll_breaks g c chat_request run n rs Ha Hpending Hlt Hrs Hdone)
    as (log & Hpoll & _).
  destruct Ha as (Hc & Ht & Hm & Hr).
  unfold outcome.
  now rewrite (chat_list_raised g chat_request Ht c run _ _ _ Hc Hm Hr Hpoll Hlt
                 msg Hml).
Qed.

Lemma listing_failure_is_reported_witness :
  let c := service (Fail "down") (Ok tt) (Ok run_1)
             (fun _ => Ok (reporting "completed")) (Fail "timed out") in
  outcome (chat (configured_with c) hello)
  = Raised (HTTPException 500 "Internal server error: timed out").
Proof.
  intros c.
  apply (listing_failure_is_reported (configured_with c) c hello run_1 0
           (reporting "completed") "timed out"); try reflexivity.
  - unfold accepted. auto.
  - intros k Hk. lia.
  - unfold MAX_POLL_ATTEMPTS. lia.
Defined.

(** X11.  When the run is reported completed within the budget and the first
    message listed has no content block, indexing its content raises and
    [chat] answers with the error of status 500
    ["Internal server error: list index out of range"]. *)
Theorem message_without_content_is_error
  g c chat_request run n rs messages m ms :
  accepted g c chat_request run ->
  pending_for c (thread_id chat_request) run n ->
  n < MAX_POLL_ATTEMPTS ->
  observed c (thread_id chat_request) run n = Ok rs ->
  status rs = "completed" ->
  messages_list c (thread_id chat_request) 1 = Ok messages ->
  data messages = m :: ms ->
  content m = [] ->
  outcome (chat g chat_request)
  = Raised (HTTPException 500 "Internal server error: list index out of range").
Proof.
  intros Ha Hpending Hlt Hrs Hdone Hml Hdata Hcontent.
  destruct (poll_breaks g c chat_request run n rs Ha Hpending Hlt Hrs Hdone)
    as (log & Hpoll & _).
  destruct Ha as (Hc & Ht & Hm & Hr).
  unfold outcome.
  now rewrite (chat_no_content g chat_request Ht c run _ _ _ Hc Hm Hr Hpoll Hlt
                 messages m ms Hml Hdata Hcontent).
Qed.

Lemma message_without_content_is_error_witness :
  let c := scripted (completes_on 1) [{| content := [] |}] in
  outcome (chat (configured_with c) hello)
  = Raised (HTTPException 500 "Internal server error: list index out of range").
Proof.
  intros c.
  apply (message_without_content_is_error (configured_with c) c hello run_1 0
           (reporting "completed") {| data := [{| content := [] |}] |}
           {| content := [] |} []); try reflexivity.
  - unfold accepted. auto.
  - intros k Hk. lia.
  - unfold MAX_POLL_ATTEMPTS. lia.
Defined.

(** X12.  When the run is reported completed within the budget and the first
    content block of the first message listed is not a text block, reading
    its [text] raises and [chat] answers with an error of status 500, also
    when a later block of the message is a text block. *)
Theorem message_without_leading_text_is_error
  g c chat_request run n rs messages m ms type_name blocks :
  accepted g c chat_request run ->
  pending_for c (thread_id chat_request) run n ->
  n < MAX_POLL_ATTEMPTS ->
  observed c (thread_id chat_request) run n = Ok rs ->
  status rs = "completed" ->
  messages_list c (thread_id chat_request) 1 = Ok messages ->
  data messages = m :: ms ->
  content m = OtherContentBlock type_name :: blocks ->
  outcome (chat g chat_request)
  = Raised (HTTPException 500
              ("Internal server error: '" ++ type_name
               ++ "' object has no attribute 'text'")).
Proof.
  intros Ha Hpending Hlt Hrs Hdone Hml Hdata Hcontent.
  destruct (poll_breaks g c chat_request run n rs Ha Hpending Hlt Hrs Hdone)
    as (log & Hpoll & _).
  destruct Ha as (Hc & Ht & Hm & Hr).
  unfold outcome.
  now rewrite (chat_no_text g chat_request Ht c run _ _ _ Hc Hm Hr Hpoll Hlt
                 messages m ms type_name blocks Hml Hdata Hcontent).
Qed.

Lemma message_without_leading_text_is_error_witness :
  let m := {| content := [OtherContentBlock "ImageFileContentBlock";
                          TextContentBlock {| value := "hi" |}] |} in
  let c := scripted (completes_on 1) [m] in
  outcome (chat (configured_with c) hello)
  = Raised (HTTPException 500
              "Internal server error: 'ImageFileContentBlock' object has no attribute 'text'").
Proof.
  intros m c.
  apply (message_without_leading_text_is_error (configured_with c) c hello
           run_1 0 (reporting "completed") {| data := [m] |} m []
           "ImageFileContentBlock" [TextContentBlock {| value := "hi" |}]);
    try reflexivity.
  - unfold accepted. auto.
  - intros k Hk. lia.
  - unfold MAX_POLL_ATTEMPTS. lia.
Defined.

(** ** [GET /start] *)

Lemma start_evaluates g :
  start_conversation g 0 =
  match client g with
  | None =>
      (Raised (HTTPException 500
                 ("Failed to create thread: "
                  ++ "'NoneType' object has no attribute 'beta'")),
       0,
       [Print ("Error creating thread: "
               ++ "'NoneType' object has no attribute 'beta'")])
  | Some c =>
      match threads_create c with
      | Ok thread =>
          (Returned {| start_thread_id := thread_oid thread |}, 0,
           [ThreadsCreate;
            Print ("New thread created with ID: " ++ thread_oid thread)])
      | Fail msg =>
          (Raised (HTTPException 500 ("Failed to create thread: " ++ msg)), 0,
           [ThreadsCreate; Print ("Error creating thread: " ++ msg)])
      end
  end.
Proof.
  unfold start_conversation, try_except, call_threads_create, client_beta.
  destruct (client g) as [c|]; [|reflexivity].
  cbv beta iota delta [bind ret emit].
  destruct (threads_create c); reflexivity.
Qed.

(** X13.  When the service creates the thread, [/start] answers with the
    identifier of that thread, and the creation is the only remote call. *)
Theorem start_returns_the_thread g c thread :
  client g = Some c ->
  threads_create c = Ok thread ->
  fst (get_start g) = Success {| start_thread_id := thread_oid thread |}
  /\ filter is_remote_call (snd (get_start g)) = [ThreadsCreate].
Proof.
  intros Hc Hth. unfold get_start, serve.
  rewrite start_evaluates, Hc, Hth. split; reflexivity.
Qed.

Lemma start_returns_the_thread_witness :
  let c := scripted (completes_on 1) [] in
  fst (get_start (configured_with c))
  = Success {| start_thread_id := "thread_1" |}
  /\ filter is_remote_call (snd (get_start (configured_with c)))
     = [ThreadsCreate].
Proof.
  intros c.
  apply (start_returns_the_thread (configured_with c) c
           {| thread_oid := "thread_1" |}); reflexivity.
Defined.

(** X14.  Whatever the globals and the service, [/start] answers with a
    thread or with an error of status 500 whose detail starts with
    ["Failed to create thread: "], and makes at most one remote call; when
    the service raises, the detail ends with the message of the service. *)
Theorem start_failure_is_reported g :
  ((exists thread_id, fst (get_start g) = Success thread_id)
   \/ (exists detail,
         fst (get_start g) = HTTPError 500 detail
         /\ prefix "Failed to create thread: " detail = true))
  /\ count is_remote_call (snd (get_start g)) <= 1
  /\ (forall c msg,
        client g = Some c -> threads_create c = Fail msg ->
        fst (get_start g)
        = HTTPError 500 ("Failed to create thread: " ++ msg)).
Proof.
  unfold get_start, serve. rewrite start_evaluates.
  destruct (client g) as [c|].
  - destruct (threads_create c) as [thread|msg] eqn:Hth; cbn [fst snd respond].
    + split; [left; eexists; reflexivity|]. split; [cbn; lia|].
      intros c' msg' [= <-] H. congruence.
    + split; [right; eexists; split; [reflexivity | apply prefix_append]|].
      split; [cbn; lia|].
      intros c' msg' [= <-] H. congruence.
  - cbn [fst snd respond].
    split; [right; eexists; split; [reflexivity | apply prefix_append]|].
    split; [cbn; lia|]. discriminate.
Qed.

(** ** Start-up *)

(** X15.  The start-up succeeds exactly when both environment variables are
    set to a string that is not empty; the globals are then the client made
    from the key and the assistant identifier of the environment. *)
Theorem lifespan_succeeds_iff OpenAI environ g :
  (fst (fst (lifespan OpenAI environ g)) = Returned tt
   <-> exists key a,
         OPENAI_API_KEY environ = Some key /\ key <> ""
         /\ ASSISTANT_ID environ = Some a /\ a <> "")
  /\ (forall key a,
        OPENAI_API_KEY environ = Some key -> key <> "" ->
        ASSISTANT_ID environ = Some a -> a <> "" ->
        lifespan OpenAI environ g
        = (Returned tt,
           {| client := Some (OpenAI key); assistant_id := Some a |},
           [Print "OpenAI client initialized successfully"])).
Proof.
  unfold lifespan. cbn [assistant_id]. split; [split|].
  - destruct (OPENAI_API_KEY environ) as [key|]; cbn [env_set negb];
      [|discriminate].
    destruct (key =? "") eqn:Hk; cbn [negb]; [discriminate|].
    destruct (ASSISTANT_ID environ) as [a|]; cbn [env_set negb]; [|discriminate].
    destruct (a =? "") eqn:Ha; cbn [negb]; [discriminate|].
    intros _. exists key, a.
    apply String.eqb_neq in Hk, Ha. auto.
  - intros (key & a & -> & Hk & -> & Ha).
    apply String.eqb_neq in Hk, Ha. cbn [env_set]. now rewrite Hk, Ha.
  - intros key a -> Hk -> Ha.
    apply String.eqb_neq in Hk, Ha. cbn [env_set]. now rewrite Hk, Ha.
Qed.

(** X16.  When the start-up fails it raises a [ValueError] that names the
    variable: [OPENAI_API_KEY] when the key is unset or empty, whatever the
    assistant identifier is, and [ASSISTANT_ID] otherwise.  Nothing is
    printed and [client] is left as it was, while [assistant_id] already
    holds the value read from the environment. *)
Theorem lifespan_failure_names_the_variable OpenAI environ g :
  fst (fst (lifespan OpenAI environ g)) <> Returned tt ->
  lifespan OpenAI environ g
  = (Raised (Exception
               ((if env_set (OPENAI_API_KEY environ) then "ASSISTANT_ID"
                 else "OPENAI_API_KEY")
                ++ " environment variable is not set")),
     {| client := client g; assistant_id := ASSISTANT_ID environ |}, []).
Proof.
  unfold lifespan. cbn [assistant_id].
  destruct (env_set (OPENAI_API_KEY environ)); cbn [negb]; [|reflexivity].
  destruct (env_set (ASSISTANT_ID environ)); cbn [negb]; [|reflexivity].
  intros H. now elim H.
Qed.

Lemma lifespan_failure_names_the_variable_witness :
  let environ := {| OPENAI_API_KEY := Some ""; ASSISTANT_ID := Some "asst_1" |} in
  lifespan (fun _ => scripted (completes_on 1) []) environ unconfigured
  = (Raised (Exception "OPENAI_API_KEY environment variable is not set"),
     {| client := None; assistant_id := Some "asst_1" |}, []).
Proof.
  intros environ.
  apply (lifespan_failure_names_the_variable
           (fun _ => scripted (completes_on 1) []) environ unconfigured).
  discriminate.
Defined.

(** X17.  After a start-up that succeeded, [/health] reports both the client
    and the assistant identifier as configured. *)
Theorem health_after_start_up OpenAI environ g g' log :
  lifespan OpenAI environ g = (Returned tt, g', log) ->
  fst (get_health g')
  = Success {| health_status := "healthy";
               openai_configured := true;
               assistant_configured := true |}.
Proof.
  intros H. destruct (lifespan_configures _ _ _ _ _ H) as [Hc Ha].
  unfold get_health, serve, health_check, ret. cbn [fst respond].
  now rewrite Hc, Ha.
Qed.

Lemma health_after_start_up_witness :
  let OpenAI := fun _ : string => scripted (completes_on 1) [] in
  let environ := {| OPENAI_API_KEY := Some "sk"; ASSISTANT_ID := Some "asst_1" |} in
  fst (get_health {| client := Some (OpenAI "sk"); assistant_id := Some "asst_1" |})
  = Success {| health_status := "healthy";
               openai_configured := true;
               assistant_configured := true |}.
Proof.
  intros OpenAI environ.
  apply (health_after_start_up OpenAI environ unconfigured _
           [Print "OpenAI client initialized successfully"]).
  reflexivity.
Defined.

(** ** [POST /chat] as a route *)

Lemma chat_status g chat_request :
  In (http_status (respond (fst (fst (chat g chat_request 0)))))
    [200; 400; 500; 504].
Proof.
  apply (chat_cases g chat_request
           (fun x => In (http_status (respond (fst (fst x))))
                       [200; 400; 500; 504]));
    intros; cbn [fst respond http_status]; try (simpl; tauto).
  assert (status_code = 500) as ->.
  { apply (poll_raises_500 g (thread_id chat_request) run 0 0).
    match goal with H : poll _ _ _ _ _ = _ |- _ => now rewrite H end. }
  simpl. tauto.
Qed.

(** X18.  The status of the answer of [POST /chat] is 200, 400, 422, 500 or
    504.  A body in which a field is absent is answered with status 422.
    The handler never produces that status, so an answer of status 422 means
    that the handler was not entered: the request has no event. *)
Theorem post_chat_statuses g body :
  In (http_status (fst (post_chat g body))) [200; 400; 422; 500; 504]
  /\ (body_thread_id body = None \/ body_message body = None ->
      http_status (fst (post_chat g body)) = 422)
  /\ (http_status (fst (post_chat g body)) = 422 ->
      snd (post_chat g body) = [])
  /\ (forall chat_request,
        http_status (fst (serve (chat g chat_request))) <> 422).
Proof.
  assert (Hhandler : forall chat_request,
             http_status (fst (serve (chat g chat_request))) <> 422).
  { intros chat_request. unfold serve.
    pose proof (chat_status g chat_request) as H.
    destruct (chat g chat_request 0) as [[r s] l]. cbn [fst snd] in *.
    simpl in H. destruct H as [<- | [<- | [<- | [<- | []]]]]; discriminate. }
  split; [|split; [|split; [|exact Hhandler]]].
  - unfold post_chat, validate_ChatRequest.
    destruct body as [[t|] [m|]]; cbn [body_thread_id body_message fst http_status];
      try (simpl; tauto).
    pose proof (chat_status g {| thread_id := t; message := m |}) as H.
    unfold serve. destruct (chat g {| thread_id := t; message := m |} 0)
      as [[r s] l].
    cbn [fst snd] in *. simpl in *. tauto.
  - unfold post_chat, validate_ChatRequest.
    destruct body as [[t|] [m|]]; cbn [body_thread_id body_message];
      intros [E | E]; try discriminate; reflexivity.
  - unfold post_chat, validate_ChatRequest.
    destruct body as [[t|] [m|]]; cbn [body_thread_id body_message];
      try reflexivity.
    intros E. now elim (Hhandler {| thread_id := t; message := m |}).
Qed.

Lemma start_failure_is_reported_witness :
  let c := service (Fail "quota exceeded") (Ok tt) (Ok run_1)
             (fun _ => Ok (reporting "completed")) (Ok {| data := [] |}) in
  fst (get_start (configured_with c))
  = HTTPError 500 "Failed to create thread: quota exceeded".
Proof.
  intros c.
  apply (proj2 (proj2 (start_failure_is_reported (configured_with c)))
           c "quota exceeded"); reflexivity.
Defined.

Lemma lifespan_succeeds_iff_witness :
  let OpenAI := fun _ : string => scripted (completes_on 1) [] in
  let environ := {| OPENAI_API_KEY := Some "sk"; ASSISTANT_ID := Some "asst_1" |} in
  lifespan OpenAI environ unconfigured
  = (Returned tt,
     {| client := Some (OpenAI "sk"); assistant_id := Some "asst_1" |},
     [Print "OpenAI client initialized successfully"]).
Proof.
  intros OpenAI environ.
  apply (proj2 (lifespan_succeeds_iff OpenAI environ unconfigured) "sk" "asst_1");
    (reflexivity || discriminate).
Defined.

Lemma post_chat_statuses_witness :
  let g := configured_with (scripted (completes_on 1) [text_message "hi"]) in
  let body := {| body_thread_id := Some "thread_1"; body_message := None |} in
  http_status (fst (post_chat g body)) = 422
  /\ snd (post_chat g body) = [].
Proof.
  intros g body.
  destruct (post_chat_statuses g body) as (_ & H422 & Hquiet & _).
  split; [apply H422; right; reflexivity|].
  apply Hquiet, H422. right. reflexivity.
Defined.
